(** * Metamorphosis Agent: a shallow embedding of [app_render.py] and
      [design_agent.py]

    The application keeps one uploaded picture per Streamlit session, sends it
    to a multimodal model for an upcycling blueprint, and sends the
    visualisation prompt of that blueprint to an image generator.  This file
    embeds the Python code as functions over an explicit application state
    (session state, the [st.cache_data] memo table and a log of remote
    requests and user-visible errors) and proves the properties the
    specification states about it.

    Python values are modelled by [json], dictionaries by stdpp's [gmap],
    exceptions by the result type [exc], and the mutable ambient state by
    the state-and-exception monad [M]. *)

From Stdlib Require Import ZArith QArith Qround Ascii Floats.PrimFloat.
From stdpp Require Import gmap strings list fin_maps relations.

#[local] Set Warnings "-register-all,-inexact-float".
#[local] Open Scope Z_scope.

(** ** Python values *)

(** The values [json.loads] can return.  [JNull] is Python's [None]; a
    dictionary is a finite map with string keys. *)
Inductive json : Type :=
| JNull
| JBool (b : bool)
| JInt (z : Z)
| JFloat (f : PrimFloat.float)
| JStr (s : string)
| JArr (l : list json)
| JObj (m : gmap string json).

Abbreviation dict := (gmap string json).

Definition bytes : Type := list Byte.byte.

(** Python's truth value of an object ([if x:], [not x]). *)
Definition truthy (v : json) : bool :=
  match v with
  | JNull => false
  | JBool b => b
  | JInt z => negb (z =? 0)
  | JFloat f => negb (PrimFloat.eqb f 0%float)
  | JStr s => match s with EmptyString => false | String _ _ => true end
  | JArr l => match l with [] => false | _ :: _ => true end
  | JObj m => negb (bool_decide (m = ∅))
  end.

(** The exceptions the two programs can meet. [APIError] stands for whatever
    a remote client raises (network, authentication, quota). *)
Inductive exn : Type :=
| FileNotFoundError
| UnidentifiedImageError
| JSONDecodeError
| TypeError
| AttributeError
| KeyError (key : string)
| APIError (message : string).

(** The outcome of evaluating a Python expression: a value or a raised
    exception. *)
Inductive exc (A : Type) : Type :=
| Ok (a : A)
| Raise (e : exn).
Arguments Ok {A} a.
Arguments Raise {A} e.

Definition exc_bind {A B : Type} (r : exc A) (k : A → exc B) : exc B :=
  match r with
  | Ok a => k a
  | Raise e => Raise e
  end.

(** [d.pop(key, default)]: only a dictionary has a two-argument [pop]; a
    list's [pop] takes one argument at most and the other values have no
    such attribute.  Returns the popped value and the dictionary left. *)
Definition pop (v : json) (key : string) (default_ : json) : exc (json * dict) :=
  match v with
  | JObj m => Ok (default default_ (m !! key), delete key m)
  | JArr _ => Raise TypeError
  | _ => Raise AttributeError
  end.

(** [d[key]] for a string key. *)
Definition subscript (v : json) (key : string) : exc json :=
  match v with
  | JObj m => match m !! key with
              | Some x => Ok x
              | None => Raise (KeyError key)
              end
  | _ => Raise TypeError
  end.

(** [int(x)] of a float, the float taken as the rational it denotes:
    truncation towards zero. *)
Definition int_of_float (x : Q) : Z := Z.quot (Qnum x) (Z.pos (Qden x)).

(** ** The blueprint schema *)

(** The part of the OpenAPI schema language [DESIGN_SCHEMA] uses. *)
Inductive schema : Type :=
| SString (enum : option (list string))
| SInteger (minimum maximum : option Z)
| SArray (items : schema)
| SObject (properties : list (string * schema)) (required : list string).

Definition in_enum (enum : option (list string)) (s : string) : bool :=
  match enum with
  | None => true
  | Some values => bool_decide (s ∈ values)
  end.

Definition above (minimum : option Z) (z : Z) : bool :=
  match minimum with None => true | Some lo => lo <=? z end.

Definition below (maximum : option Z) (z : Z) : bool :=
  match maximum with None => true | Some hi => z <=? hi end.

(** Whether a value has the shape a schema describes: the declared type,
    the enumeration and bounds, every required property present, and every
    declared property that is present of its own shape. *)
Fixpoint conforms (sch : schema) (v : json) {struct sch} : bool :=
  match sch, v with
  | SString enum, JStr s => in_enum enum s
  | SInteger lo hi, JInt z => above lo z && below hi z
  | SArray items, JArr l => forallb (conforms items) l
  | SObject properties required, JObj m =>
      forallb (λ k, bool_decide (is_Some (m !! k))) required
      && forallb (λ p, match m !! p.1 with
                       | Some x => conforms p.2 x
                       | None => true
                       end) properties
  | _, _ => false
  end.

(** ** The collaborators outside the repository *)

(** A decoded raster image ([PIL.Image.Image]).  It defines neither
    [__bool__] nor [__len__], so an image object is always true. *)
Inductive PILImage : Type :=
| Raster (pixels : bytes).

(** The file a user uploads ([UploadedFile], a [BytesIO]); like every
    [BytesIO] it is always true. *)
Definition UploadedFile : Type := bytes.

(** PIL, the file system and the [json] module. [json.loads] raises
    [JSONDecodeError] on the empty text. *)
Class Libraries : Type := {
  open_path : string → exc bytes;
  Image_open : bytes → exc PILImage;
  json_loads : string → exc json;
  json_loads_empty : json_loads EmptyString = Raise JSONDecodeError
}.

(** [json.loads(response.text)]: the text of a response is a string or
    [None], and [json.loads(None)] raises [TypeError]. *)
Definition json_loads_text `{Libraries} (text : option string) : exc json :=
  match text with
  | None => Raise TypeError
  | Some s => json_loads s
  end.

(** [types.FinishReason]: the members are non-empty strings, hence true. *)
Inductive FinishReason : Type :=
| FINISH_REASON_UNSPECIFIED
| STOP
| MAX_TOKENS
| SAFETY
| RECITATION
| OTHER.

#[global] Instance FinishReason_eq_dec : EqDecision FinishReason.
Proof. solve_decision. Defined.

Record Candidate : Type := {
  finish_reason : option FinishReason
}.

(** What [generate_content] returns: [text] is [None] when the model
    produced no text part; [candidates] is [None] or a list, the two
    modelled alike by the empty list. *)
Record GenerateContentResponse : Type := {
  text : option string;
  candidates : list Candidate
}.

Record GenerateContentConfig : Type := {
  system_instruction : option string;
  response_mime_type : string;
  response_schema : schema;
  temperature : PrimFloat.float
}.

Record GenerateContentRequest : Type := {
  model : string;
  contents : string * PILImage;
  config : GenerateContentConfig
}.

(** A [genai.Client]: its one method used here answers a request or raises. *)
Record GeminiClient : Type := {
  generate_content : GenerateContentRequest → exc GenerateContentResponse
}.

(** [not response.text]: [None] and the empty string are false. *)
Definition text_truthy (t : option string) : bool :=
  match t with
  | None => false
  | Some s => truthy (JStr s)
  end.

(** ** [design_agent.py] *)

Module design_agent.

(** [DESIGN_SCHEMA] of [design_agent.py] (the [description] annotations
    left out). *)
Definition DESIGN_SCHEMA : schema :=
  SObject
    [ ("design_title", SString None);
      ("design_type",
        SString (Some ["Art Piece"; "Small Furniture"; "Accessory"; "Tool"]));
      ("material_breakdown",
        SArray (SObject [ ("material_name", SString None);
                          ("estimated_quantity", SString None) ]
                        ["material_name"; "estimated_quantity"]));
      ("assembly_steps_summary", SString None);
      ("upcycle_score", SInteger (Some 1) (Some 10)) ]
    ["design_title"; "design_type"; "material_breakdown";
     "assembly_steps_summary"; "upcycle_score"].

Definition system_instruction_text : string :=
  "You are the 'Metamorphosis Agent,' an expert industrial designer specializing in sustainable upcycling and creative constraints. Your task is to analyze the waste material provided in the image and generate ONE unique design for a new, functional, or artistic object. Your design MUST strictly adhere to the structural JSON output provided. Do not include any text outside of the JSON object.".

Definition user_prompt : string :=
  "Analyze the following image of discarded materials. Determine the material type, estimated quantity, and dominant colors. Then, generate a creative and feasible blueprint for a new object that can be built using ONLY the materials seen in the image. Be innovative and focus on environmental sustainability.".

Definition request (img : PILImage) : GenerateContentRequest :=
  {| model := "gemini-2.5-flash";
     contents := (user_prompt, img);
     config := {| system_instruction := Some system_instruction_text;
                  response_mime_type := "application/json";
                  response_schema := DESIGN_SCHEMA;
                  temperature := 0.8%float |} |}.

(** The lines the script prints, one constructor per [print] call. *)
Inductive printed : Type :=
| PrintFileNotFound (image_path : string)
| PrintCouldNotOpen (e : exn)
| PrintSendingRequest
| PrintTroubleshootingEmptyResponse
| PrintBlockedBySafetyFilter
| PrintTryDifferentImage
| PrintNoTextFinishReason (reason : FinishReason)
| PrintEmptyNoSpecificReason
| PrintSuccessHeader
| PrintBlueprint (design_blueprint : json)
| PrintProjectMetrics
| PrintDesignTitle (v : json)
| PrintUpcycleScore (v : json)
| PrintMaterialType (v : json)
| PrintJsonDecodingFailure
| PrintNotValidJson
| PrintPromptNeedsStructure
| PrintRawTextFollows
| PrintRawText (text : string)
| PrintDecodingError (e : exn).

(** The report on an empty response text (lines 104-118): the first
    candidate's finish reason, when there is one, tells a safety block from
    the other reasons. *)
Definition report_empty_text (response : GenerateContentResponse) : list printed :=
  PrintTroubleshootingEmptyResponse ::
  match candidates response with
  | c :: _ =>
      match finish_reason c with
      | Some reason =>
          if decide (reason = SAFETY)
          then [PrintBlockedBySafetyFilter; PrintTryDifferentImage]
          else [PrintNoTextFinishReason reason]
      | None => [PrintEmptyNoSpecificReason]
      end
  | [] => [PrintEmptyNoSpecificReason]
  end.

(** The success path after [json.loads] (lines 123-130): the three
    subscripts are outside what the [except json.JSONDecodeError] clause
    catches, so a missing key ends the function with the exception. *)
Definition report_blueprint (design_blueprint : json) : list printed * exc () :=
  let head := [PrintSuccessHeader; PrintBlueprint design_blueprint;
               PrintProjectMetrics] in
  match subscript design_blueprint "design_title" with
  | Raise e => (head, Raise e)
  | Ok title =>
      match subscript design_blueprint "upcycle_score" with
      | Raise e => (head ++ [PrintDesignTitle title], Raise e)
      | Ok score =>
          match subscript design_blueprint "design_type" with
          | Raise e =>
              (head ++ [PrintDesignTitle title; PrintUpcycleScore score], Raise e)
          | Ok type =>
              (head ++ [PrintDesignTitle title; PrintUpcycleScore score;
                        PrintMaterialType type], Ok ())
          end
      end
  end.

(** [analyze_waste_and_design(image_path, client)]: what it prints and
    whether it returns ([None], always) or ends with an exception. *)
Definition analyze_waste_and_design `{Libraries}
    (image_path : string) (client : GeminiClient) : list printed * exc () :=
  match exc_bind (open_path image_path) Image_open with
  | Raise FileNotFoundError => ([PrintFileNotFound image_path], Ok ())
  | Raise e => ([PrintCouldNotOpen e], Ok ())
  | Ok img =>
      match generate_content client (request img) with
      | Raise e => ([PrintSendingRequest], Raise e)
      | Ok response =>
          if negb (text_truthy (text response))
          then (PrintSendingRequest :: report_empty_text response, Ok ())
          else
            match json_loads_text (text response) with
            | Raise JSONDecodeError =>
                (PrintSendingRequest ::
                 [PrintJsonDecodingFailure; PrintNotValidJson;
                  PrintPromptNeedsStructure; PrintRawTextFollows;
                  PrintRawText (default EmptyString (text response));
                  PrintDecodingError JSONDecodeError], Ok ())
            | Raise e => ([PrintSendingRequest], Raise e)
            | Ok design_blueprint =>
                let '(lines, r) := report_blueprint design_blueprint in
                (PrintSendingRequest :: lines, r)
            end
      end
  end.

End design_agent.

(** ** [app_render.py] *)

Module app_render.

(** *** Configuration and state *)

(** What [text_to_image] may return: an image object (it has a [save]
    attribute) or the raw encoded bytes. *)
Inductive hf_output : Type :=
| OutputImage (image : PILImage)
| OutputBytes (data : bytes).

(** The [prompt] field keeps the two parts of the f-string apart: the fixed
    style prefix and the value formatted after it. *)
Record TextToImageRequest : Type := {
  prompt : string * json;
  image_model : string;
  guidance_scale : PrimFloat.float;
  num_inference_steps : Z
}.

Record InferenceClient : Type := {
  text_to_image : TextToImageRequest → exc hf_output
}.

(** The module-level configuration of one script run (lines 106-128): the
    analysis key, and the two clients, each [None] when its key is empty or
    its constructor raised. *)
Record Config : Type := {
  gemini_api_key : string;
  gemini_client : option GeminiClient;
  hf_client : option InferenceClient
}.

(** [st.session_state].  [vis_prompt] holds whatever [pop] returned, so it
    is a Python value, [JNull] being [None]. *)
Record SessionState : Type := {
  uploaded_file_obj : option UploadedFile;
  unique_id : option Z;
  blueprint_data : option dict;
  vis_prompt : json;
  generated_image_obj : option PILImage;
  last_generation_status : option string
}.

(** The arguments of the [st.error] calls. *)
Inductive error_message : Type :=
| UploadAnImageFirst
| ErrorProcessingImage (e : exn)
| GeminiAPIError (e : exn)
| HFClientNotInitialized
| ImageGenerationError (e : exn).

(** What a script run does that is visible outside the session state. *)
Inductive event : Type :=
| RemoteGenerateContent (request : GenerateContentRequest)
| RemoteTextToImage (request : TextToImageRequest)
| StError (message : error_message).

Definition is_remote_call (ev : event) : bool :=
  match ev with
  | RemoteGenerateContent _ | RemoteTextToImage _ => true
  | StError _ => false
  end.

Definition remote_calls (l : list event) : list event := filter is_remote_call l.

Definition errors_of (l : list event) : list error_message :=
  omap (λ ev, match ev with StError m => Some m | _ => None end) l.

(** An entry of the [st.cache_data] table: the pickled return value and the
    Streamlit elements the function displayed, replayed on a hit. *)
Record CacheEntry : Type := {
  value : option dict * json;
  replayed : list error_message
}.

(** The memo table of [run_gemini_analysis].  [st.cache_data] hashes the
    arguments whose name does not start with an underscore, here
    [client_api_key] and [unique_id]; the table is never cleared and has
    neither a time-to-live nor a size bound. *)
Abbreviation Cache := (gmap (string * option Z) CacheEntry).

Record App : Type := {
  session_state : SessionState;
  cache_data : Cache;
  log : list event
}.

(** *** The state-and-exception monad *)

Definition M (A : Type) : Type := App → exc A * App.

Definition ret {A : Type} (a : A) : M A := λ app, (Ok a, app).

Definition bind {A B : Type} (m : M A) (k : A → M B) : M B :=
  λ app, match m app with
         | (Ok a, app') => k a app'
         | (Raise e, app') => (Raise e, app')
         end.

Definition lift {A : Type} (r : exc A) : M A := λ app, (r, app).

(** [try: body except Exception as e: handler e]. *)
Definition try_except {A : Type} (body : M A) (handler : exn → M A) : M A :=
  λ app, match body app with
         | (Ok a, app') => (Ok a, app')
         | (Raise e, app') => handler e app'
         end.

#[global] Instance M_ret : MRet M := @ret.
#[global] Instance M_bind : MBind M := λ A B k m, bind m k.

Definition emit (ev : event) : M () :=
  λ app, (Ok (), {| session_state := session_state app;
                    cache_data := cache_data app;
                    log := log app ++ [ev] |}).

Definition st_error (m : error_message) : M () := emit (StError m).

Definition get_session : M SessionState := λ app, (Ok (session_state app), app).

Definition modify_session (f : SessionState → SessionState) : M () :=
  λ app, (Ok (), {| session_state := f (session_state app);
                    cache_data := cache_data app;
                    log := log app |}).

(** [st.session_state[...] = v], one function per key. *)
Definition set_uploaded_file_obj (v : option UploadedFile) : M () :=
  modify_session (λ s, {| uploaded_file_obj := v;
                          unique_id := unique_id s;
                          blueprint_data := blueprint_data s;
                          vis_prompt := vis_prompt s;
                          generated_image_obj := generated_image_obj s;
                          last_generation_status := last_generation_status s |}).

Definition set_unique_id (v : option Z) : M () :=
  modify_session (λ s, {| uploaded_file_obj := uploaded_file_obj s;
                          unique_id := v;
                          blueprint_data := blueprint_data s;
                          vis_prompt := vis_prompt s;
                          generated_image_obj := generated_image_obj s;
                          last_generation_status := last_generation_status s |}).

Definition set_blueprint_data (v : option dict) : M () :=
  modify_session (λ s, {| uploaded_file_obj := uploaded_file_obj s;
                          unique_id := unique_id s;
                          blueprint_data := v;
                          vis_prompt := vis_prompt s;
                          generated_image_obj := generated_image_obj s;
                          last_generation_status := last_generation_status s |}).

Definition set_vis_prompt (v : json) : M () :=
  modify_session (λ s, {| uploaded_file_obj := uploaded_file_obj s;
                          unique_id := unique_id s;
                          blueprint_data := blueprint_data s;
                          vis_prompt := v;
                          generated_image_obj := generated_image_obj s;
                          last_generation_status := last_generation_status s |}).

Definition set_generated_image_obj (v : option PILImage) : M () :=
  modify_session (λ s, {| uploaded_file_obj := uploaded_file_obj s;
                          unique_id := unique_id s;
                          blueprint_data := blueprint_data s;
                          vis_prompt := vis_prompt s;
                          generated_image_obj := v;
                          last_generation_status := last_generation_status s |}).

Definition set_last_generation_status (v : option string) : M () :=
  modify_session (λ s, {| uploaded_file_obj := uploaded_file_obj s;
                          unique_id := unique_id s;
                          blueprint_data := blueprint_data s;
                          vis_prompt := vis_prompt s;
                          generated_image_obj := generated_image_obj s;
                          last_generation_status := v |}).

(** The session a first script run sets up (lines 91-98). *)
Definition initial_session_state : SessionState :=
  {| uploaded_file_obj := None;
     unique_id := None;
     blueprint_data := None;
     vis_prompt := JNull;
     generated_image_obj := None;
     last_generation_status := None |}.

Definition initial_app : App :=
  {| session_state := initial_session_state; cache_data := ∅; log := [] |}.

(** *** The blueprint schema of the application (lines 133-154) *)

Definition DESIGN_SCHEMA : schema :=
  SObject
    [ ("design_title", SString None);
      ("design_type",
        SString (Some ["Art Piece"; "Small Furniture"; "Accessory"; "Tool"]));
      ("material_breakdown",
        SArray (SObject [ ("material_name", SString None);
                          ("estimated_quantity", SString None) ]
                        ["material_name"; "estimated_quantity"]));
      ("assembly_steps_summary", SString None);
      ("upcycle_score", SInteger (Some 1) (Some 10));
      ("visualization_prompt", SString None) ]
    ["design_title"; "design_type"; "material_breakdown";
     "assembly_steps_summary"; "upcycle_score"; "visualization_prompt"].

(** *** Analysis (lines 159-189) *)

Definition system_instruction_text : string :=
  "You are the 'Metamorphosis Agent'. Your goal is to help upcycle waste. 1. ANALYZE the image and strictly identify the specific waste materials present (e.g., plastic bottles, cardboard, wood scrap). 2. DESIGN a creative upcycling project using ONLY the materials found in the image (plus basic tools/adhesives). 3. Do NOT hallucinate objects or materials that are not clearly visible in the input image. 4. Generate a JSON blueprint strictly matching the provided schema.".

Definition analysis_request (image : PILImage) : GenerateContentRequest :=
  {| model := "gemini-2.0-flash";
     contents := (system_instruction_text, image);
     config := {| system_instruction := None;
                  response_mime_type := "application/json";
                  response_schema := DESIGN_SCHEMA;
                  temperature := 0.7%float |} |}.

(** A remote call: the request is logged, the client answers or raises. *)
Definition call_generate_content (client : GeminiClient)
    (request : GenerateContentRequest) : M GenerateContentResponse :=
  emit (RemoteGenerateContent request);;
  lift (generate_content client request).

(** What one analysis request comes to, the logging apart: the answer of
    the service, decoded, with the visualisation prompt popped off; or the
    first exception on the way. *)
Definition analysis_attempt `{Libraries} (client : GeminiClient)
    (image : PILImage) : exc (json * dict) :=
  exc_bind (generate_content client (analysis_request image)) (λ response,
  exc_bind (json_loads_text (text response)) (λ blueprint,
  pop blueprint "visualization_prompt" JNull)).

(** The body of [run_gemini_analysis], that is the function without its
    decorator.  The module-level [gemini_client] comes from the
    configuration of the current script run. *)
Definition run_gemini_analysis_body `{Libraries} (cfg : Config)
    (_image_obj : option PILImage) (client_api_key : string)
    (unique_id : option Z) : M (option dict * json) :=
  match gemini_client cfg, _image_obj with
  | Some client, Some image =>
      try_except
        (response ← call_generate_content client (analysis_request image);
         blueprint ← lift (json_loads_text (text response));
         '(vis_prompt, blueprint) ← lift (pop blueprint "visualization_prompt" JNull);
         mret (Some blueprint, vis_prompt))
        (λ e, st_error (GeminiAPIError e);; mret (None, JNull))
  | _, _ => mret (None, JNull)
  end.

(** [@st.cache_data]: a hit returns the stored value and replays the stored
    elements without running the function; a miss runs it and stores what it
    returned (an exception is not stored). *)
Definition st_cache_data (key : string * option Z)
    (body : M (option dict * json)) : M (option dict * json) :=
  λ app,
    match cache_data app !! key with
    | Some entry =>
        (Ok (value entry),
         {| session_state := session_state app;
            cache_data := cache_data app;
            log := log app ++ (StError <$> replayed entry) |})
    | None =>
        match body {| session_state := session_state app;
                      cache_data := cache_data app;
                      log := [] |} with
        | (Ok v, app') =>
            (Ok v,
             {| session_state := session_state app';
                cache_data := <[key := {| value := v;
                                          replayed := errors_of (log app') |}]>
                                (cache_data app');
                log := log app ++ log app' |})
        | (Raise e, app') =>
            (Raise e,
             {| session_state := session_state app';
                cache_data := cache_data app';
                log := log app ++ log app' |})
        end
    end.

(** [run_gemini_analysis] as the rest of the script calls it. *)
Definition run_gemini_analysis `{Libraries} (cfg : Config)
    (_image_obj : option PILImage) (client_api_key : string)
    (unique_id : option Z) : M (option dict * json) :=
  st_cache_data (client_api_key, unique_id)
    (run_gemini_analysis_body cfg _image_obj client_api_key unique_id).

(** *** Image generation (lines 194-217) *)

Definition style_prefix : string :=
  "Product design render, 4k photorealistic, cinematic lighting: ".

Definition render_request (prompt_text : json) : TextToImageRequest :=
  {| prompt := (style_prefix, prompt_text);
     image_model := "stabilityai/stable-diffusion-xl-base-1.0";
     guidance_scale := 7.5%float;
     num_inference_steps := 30 |}.

Definition call_text_to_image (client : InferenceClient)
    (request : TextToImageRequest) : M hf_output :=
  emit (RemoteTextToImage request);;
  lift (text_to_image client request).

Definition generate_image_with_hf `{Libraries} (cfg : Config)
    (prompt_text : json) : M (option PILImage) :=
  match hf_client cfg with
  | None => st_error HFClientNotInitialized;; mret None
  | Some client =>
      try_except
        (output ← call_text_to_image client (render_request prompt_text);
         image ← match output with
                 | OutputBytes data => lift (Image_open data)
                 | OutputImage image => mret image
                 end;
         mret (Some image))
        (λ e, st_error (ImageGenerationError e);; mret None)
  end.

(** *** Callbacks (lines 222-265) *)

(** [if blueprint:] on the first component of what the analysis returned. *)
Definition blueprint_truthy (blueprint : option dict) : bool :=
  match blueprint with
  | None => false
  | Some d => truthy (JObj d)
  end.

Definition analyze_image_callback `{Libraries} (cfg : Config) : M () :=
  s ← get_session;
  match uploaded_file_obj s with
  | None => st_error UploadAnImageFirst
  | Some uploaded_file =>
      match Image_open uploaded_file with
      | Raise e => st_error (ErrorProcessingImage e)
      | Ok image_pil =>
          '(blueprint, vis) ← run_gemini_analysis cfg (Some image_pil)
                                (gemini_api_key cfg) (unique_id s);
          if blueprint_truthy blueprint
          then set_blueprint_data blueprint;;
               set_vis_prompt vis;;
               set_generated_image_obj None;;
               set_last_generation_status None
          else mret ()
      end
  end.

Definition generate_image_callback `{Libraries} (cfg : Config) : M () :=
  s ← get_session;
  if negb (truthy (vis_prompt s))
  then set_last_generation_status (Some "no_prompt")
  else
    gen_image ← generate_image_with_hf cfg (vis_prompt s);
    match gen_image with
    | Some image =>
        set_generated_image_obj (Some image);;
        set_last_generation_status (Some "success")
    | None => set_last_generation_status (Some "failed")
    end.

(** [st.rerun()] ends the script run; the session state is kept. *)
Definition reset_app : M () :=
  set_uploaded_file_obj None;;
  set_blueprint_data None;;
  set_vis_prompt JNull;;
  set_generated_image_obj None;;
  set_last_generation_status None;;
  set_unique_id None.

(** *** The upload block of the main script (lines 283-293) *)

(** [uploaded_file] is what the uploader returned and [time_time] the
    reading of [time.time()]. *)
Definition upload_handler (uploaded_file : UploadedFile) (time_time : Q) : M () :=
  set_uploaded_file_obj (Some uploaded_file);;
  set_unique_id (Some (int_of_float time_time));;
  set_blueprint_data None;;
  set_vis_prompt JNull;;
  set_generated_image_obj None.

(** The state a computation leaves. *)
Definition exec {A : Type} (m : M A) (app : App) : App := (m app).2.

(** *** The script as a transition system *)

(** One user action, as the main script offers it (lines 273-351): the
    uploader on the landing page, shown while no file is stored; in the
    workspace the reset button, the analysis button while there is no
    blueprint and the analysis client exists, and the generation button once
    there is a blueprint and the rendering client exists. *)
Inductive ui_step `{Libraries} : App → App → Prop :=
| step_upload app uploaded_file time_time :
    uploaded_file_obj (session_state app) = None →
    ui_step app (exec (upload_handler uploaded_file time_time) app)
| step_reset app :
    uploaded_file_obj (session_state app) ≠ None →
    ui_step app (exec reset_app app)
| step_analyze app cfg :
    uploaded_file_obj (session_state app) ≠ None →
    blueprint_data (session_state app) = None →
    gemini_client cfg ≠ None →
    ui_step app (exec (analyze_image_callback cfg) app)
| step_generate app cfg :
    uploaded_file_obj (session_state app) ≠ None →
    blueprint_data (session_state app) ≠ None →
    hf_client cfg ≠ None →
    ui_step app (exec (generate_image_callback cfg) app).

(** The states a session can be in, from any content of the shared memo
    table. *)
Definition reachable `{Libraries} (app : App) : Prop :=
  ∃ cache, rtc ui_step {| session_state := initial_session_state;
                          cache_data := cache;
                          log := [] |} app.

End app_render.

Import app_render.

(** ** The main script of [app_render.py] (lines 270-362) *)

Module main_script.

(** What a script run puts on the page, one constructor per Streamlit
    call (the fixed texts are left out, the values shown are kept). *)
Inductive element : Type :=
| PageTitle
| LandingIntro
| FileUploader
| Divider
| Tip
| UploadNewImageButton
| SidebarCurrentItem (file : UploadedFile)
| UploadedItem (file : UploadedFile)
| ReadyToAnalyze
| AnalyzeButton
| GeminiKeyWarning
| DesignHeader (title : json)
| CategoryCaption (category : json)
| PlanSubheader
| UpcycleScoreMetric (score : json)
| MaterialBreakdownHeading
| MaterialLine (material_name estimated_quantity : json)
| AssemblyStepsHeading
| StepsText (steps : json)
| StepLine (number : Z) (step : json)
| VisualizationSubheader
| GenerateButton
| HFTokenWarning
| GenerationFailedError
| ConceptImage (image : PILImage).

(** How a script run ends: at its last line, at [st.rerun()], or with an
    exception nothing catches. *)
Inductive ending : Type :=
| Finished
| Rerun
| Failed (e : exn).

(** What the user did on the page the previous run drew: the file dropped
    on the uploader, if any, and the button pressed, if any; with the reading
    of the clock during this run. *)
Record Interaction : Type := {
  dropped_file : option UploadedFile;
  clock : Q;
  pressed_upload_new : bool;
  pressed_analyze : bool;
  pressed_generate : bool
}.

(** [d.get(key, default)]. *)
Definition get (d : dict) (key : string) (default_ : json) : json :=
  default default_ (d !! key).

(** [for m in v]: the items of a list, the characters of a string, the keys
    of a dictionary (their order is not modelled); the other values are not
    iterable. *)
Definition iterate (v : json) : exc (list json) :=
  match v with
  | JArr l => Ok l
  | JStr s => Ok ((λ c, JStr (String c EmptyString)) <$> String.list_ascii_of_string s)
  | JObj m => Ok ((λ kv, JStr kv.1) <$> map_to_list m)
  | _ => Raise TypeError
  end.

(** The loop over the materials (lines 335-336): one line per item, until a
    subscript raises. *)
Fixpoint material_lines (items : list json) : list element * exc () :=
  match items with
  | [] => ([], Ok ())
  | m :: rest =>
      match subscript m "material_name" with
      | Raise e => ([], Raise e)
      | Ok name =>
          match subscript m "estimated_quantity" with
          | Raise e => ([], Raise e)
          | Ok quantity =>
              let '(lines, r) := material_lines rest in
              (MaterialLine name quantity :: lines, r)
          end
      end
  end.

(** The assembly steps (lines 339-344): a string is written as it is, a list
    as numbered lines, anything else is not shown. *)
Definition steps_lines (steps : json) : list element :=
  match steps with
  | JStr _ => [StepsText steps]
  | JArr l => imap (λ i step, StepLine (Z.of_nat i + 1) step) l
  | _ => []
  end.

(** The header and the left column of the workspace (lines 323-344). *)
Definition plan_view (blueprint : dict) : list element * exc () :=
  let head :=
    [ DesignHeader (get blueprint "design_title" (JStr "Untitled Design"));
      CategoryCaption (get blueprint "design_type" (JStr "General"));
      PlanSubheader;
      UpcycleScoreMetric (get blueprint "upcycle_score" JNull);
      MaterialBreakdownHeading ] in
  match iterate (get blueprint "material_breakdown" (JArr [])) with
  | Raise e => (head, Raise e)
  | Ok items =>
      match material_lines items with
      | (lines, Raise e) => (head ++ lines, Raise e)
      | (lines, Ok _) =>
          (head ++ lines ++ AssemblyStepsHeading ::
             steps_lines (get blueprint "assembly_steps_summary" (JStr EmptyString)),
           Ok ())
      end
  end.

(** The end of the right column (lines 356-362): the error when the last
    generation failed, else the concept image when there is one. *)
Definition status_view (s : SessionState) : list element :=
  if decide (last_generation_status s = Some "failed")
  then [GenerationFailedError]
  else match generated_image_obj s with
       | Some image => [ConceptImage image]
       | None => []
       end.

(** A callback followed by [st.rerun()]. *)
Definition then_rerun (shown : list element) (r : exc () * App)
    : (list element * ending) * App :=
  match r with
  | (Ok _, app') => ((shown, Rerun), app')
  | (Raise e, app') => ((shown, Failed e), app')
  end.

(** One run of the script from the title on (the sidebar inputs of the
    configuration are left out).  [st_image] is Streamlit's own decoding of
    the uploaded file when it displays it (lines 304 and 309, on the same
    file), which may raise. *)
Definition script_run `{Libraries} (st_image : UploadedFile → exc ())
    (cfg : Config) (ui : Interaction) (app : App)
    : (list element * ending) * App :=
  let s := session_state app in
  match uploaded_file_obj s with
  | None =>
      let shown := [PageTitle; LandingIntro; FileUploader] in
      match dropped_file ui with
      | Some uploaded_file =>
          then_rerun shown (upload_handler uploaded_file (clock ui) app)
      | None => ((shown ++ [Divider; Tip], Finished), app)
      end
  | Some file =>
      if pressed_upload_new ui
      then then_rerun [PageTitle; UploadNewImageButton] (reset_app app)
      else
        match st_image file with
        | Raise e => (([PageTitle; UploadNewImageButton], Failed e), app)
        | Ok _ =>
            let top := [PageTitle; UploadNewImageButton; SidebarCurrentItem file] in
            match blueprint_data s with
            | None =>
                let shown := top ++ [UploadedItem file; ReadyToAnalyze] in
                match gemini_client cfg with
                | Some _ =>
                    if pressed_analyze ui
                    then then_rerun (shown ++ [AnalyzeButton])
                           (analyze_image_callback cfg app)
                    else ((shown ++ [AnalyzeButton], Finished), app)
                | None => ((shown ++ [GeminiKeyWarning], Finished), app)
                end
            | Some blueprint =>
                match plan_view blueprint with
                | (plan, Raise e) => ((top ++ plan, Failed e), app)
                | (plan, Ok _) =>
                    let shown := top ++ plan ++ [VisualizationSubheader] in
                    match hf_client cfg with
                    | Some _ =>
                        if pressed_generate ui
                        then then_rerun (shown ++ [GenerateButton])
                               (generate_image_callback cfg app)
                        else ((shown ++ GenerateButton :: status_view s, Finished),
                              app)
                    | None => ((shown ++ HFTokenWarning :: status_view s, Finished),
                               app)
                    end
                end
            end
        end
  end.

End main_script.

(** ** Concrete collaborators, for the examples *)

Module samples.

Definition dq : string := String "034"%char EmptyString.

Definition quoted (s : string) : string := dq +:+ s +:+ dq.

Definition member (key value_text : string) : string :=
  quoted key +:+ ": " +:+ value_text.

(** [{"design_title": "Bottle Lamp", "design_type": "Art Piece",
      "material_breakdown": [{"material_name": "Plastic bottle",
      "estimated_quantity": "3"}], "assembly_steps_summary": "Cut and glue.",
      "upcycle_score": 7, "visualization_prompt": "a lamp made of bottles"}] *)
Definition lamp_text : string :=
  "{" +:+ member "design_title" (quoted "Bottle Lamp") +:+ ", "
      +:+ member "design_type" (quoted "Art Piece") +:+ ", "
      +:+ member "material_breakdown"
            ("[{" +:+ member "material_name" (quoted "Plastic bottle") +:+ ", "
                  +:+ member "estimated_quantity" (quoted "3") +:+ "}]") +:+ ", "
      +:+ member "assembly_steps_summary" (quoted "Cut and glue.") +:+ ", "
      +:+ member "upcycle_score" "7" +:+ ", "
      +:+ member "visualization_prompt" (quoted "a lamp made of bottles") +:+ "}".

Definition lamp_dict : dict :=
  list_to_map
    [ ("design_title", JStr "Bottle Lamp");
      ("design_type", JStr "Art Piece");
      ("material_breakdown",
        JArr [JObj (list_to_map [ ("material_name", JStr "Plastic bottle");
                                  ("estimated_quantity", JStr "3") ])]);
      ("assembly_steps_summary", JStr "Cut and glue.");
      ("upcycle_score", JInt 7);
      ("visualization_prompt", JStr "a lamp made of bottles") ].

(** The blueprint the application keeps of it. *)
Definition lamp_blueprint : dict := delete "visualization_prompt" lamp_dict.

(** [{"design_title": "Crate Shelf", "design_type": "Small Furniture",
      "material_breakdown": [{"material_name": "Wooden crate",
      "estimated_quantity": "2"}], "assembly_steps_summary": "Stack and
      screw.", "upcycle_score": 9, "visualization_prompt": "a shelf made of
      crates"}] *)
Definition shelf_text : string :=
  "{" +:+ member "design_title" (quoted "Crate Shelf") +:+ ", "
      +:+ member "design_type" (quoted "Small Furniture") +:+ ", "
      +:+ member "material_breakdown"
            ("[{" +:+ member "material_name" (quoted "Wooden crate") +:+ ", "
                  +:+ member "estimated_quantity" (quoted "2") +:+ "}]") +:+ ", "
      +:+ member "assembly_steps_summary" (quoted "Stack and screw.") +:+ ", "
      +:+ member "upcycle_score" "9" +:+ ", "
      +:+ member "visualization_prompt" (quoted "a shelf made of crates") +:+ "}".

Definition shelf_dict : dict :=
  list_to_map
    [ ("design_title", JStr "Crate Shelf");
      ("design_type", JStr "Small Furniture");
      ("material_breakdown",
        JArr [JObj (list_to_map [ ("material_name", JStr "Wooden crate");
                                  ("estimated_quantity", JStr "2") ])]);
      ("assembly_steps_summary", JStr "Stack and screw.");
      ("upcycle_score", JInt 9);
      ("visualization_prompt", JStr "a shelf made of crates") ].

Definition shelf_blueprint : dict := delete "visualization_prompt" shelf_dict.

(** [{"design_title": "Lamp", "upcycle_score": 11}]: a JSON object that
    lacks four of the fields and whose score is out of range. *)
Definition partial_text : string :=
  "{" +:+ member "design_title" (quoted "Lamp") +:+ ", "
      +:+ member "upcycle_score" "11" +:+ "}".

Definition partial_dict : dict :=
  list_to_map [ ("design_title", JStr "Lamp"); ("upcycle_score", JInt 11) ].

(** [json.loads] on the three texts above; every other text is taken to be
    malformed. *)
Definition sample_json_loads (s : string) : exc json :=
  if String.eqb s lamp_text then Ok (JObj lamp_dict)
  else if String.eqb s shelf_text then Ok (JObj shelf_dict)
  else if String.eqb s partial_text then Ok (JObj partial_dict)
  else Raise JSONDecodeError.

(** A decoder that accepts every non-empty file, and a file system with one
    file. *)
Definition sample_Image_open (data : bytes) : exc PILImage :=
  match data with
  | [] => Raise UnidentifiedImageError
  | _ :: _ => Ok (Raster data)
  end.

Definition sample_open_path (path : string) : exc bytes :=
  if String.eqb path "waste.jpg" then Ok [Byte.x41] else Raise FileNotFoundError.

Definition sample_libraries : Libraries :=
  {| open_path := sample_open_path;
     Image_open := sample_Image_open;
     json_loads := sample_json_loads;
     json_loads_empty := eq_refl |}.

(** Six pictures and an analysis service that answers each in its own way:
    two well-formed blueprints, an incomplete one, an empty answer blocked by
    the safety filter, an empty answer without a reason, and a quota
    error. *)
Definition bottles : UploadedFile := [Byte.x41].
Definition crates : UploadedFile := [Byte.x42].
Definition scraps : UploadedFile := [Byte.x43].
Definition flagged : UploadedFile := [Byte.x44].
Definition blurred : UploadedFile := [Byte.x45].
Definition unlucky : UploadedFile := [Byte.x46].

Definition sample_generate_content (request : GenerateContentRequest)
    : exc GenerateContentResponse :=
  match (contents request).2 with
  | Raster [Byte.x41] =>
      Ok {| text := Some lamp_text; candidates := [{| finish_reason := Some STOP |}] |}
  | Raster [Byte.x42] =>
      Ok {| text := Some shelf_text; candidates := [{| finish_reason := Some STOP |}] |}
  | Raster [Byte.x43] =>
      Ok {| text := Some partial_text; candidates := [{| finish_reason := Some STOP |}] |}
  | Raster [Byte.x44] =>
      Ok {| text := None; candidates := [{| finish_reason := Some SAFETY |}] |}
  | Raster [Byte.x45] =>
      Ok {| text := None; candidates := [] |}
  | _ => Raise (APIError "quota exceeded")
  end.

Definition sample_gemini_client : GeminiClient :=
  {| generate_content := sample_generate_content |}.

(** A rendering service that returns encoded bytes for a string prompt and
    is unavailable otherwise, and one that is always unavailable. *)
Definition sample_text_to_image (request : TextToImageRequest) : exc hf_output :=
  match (prompt request).2 with
  | JStr _ => Ok (OutputBytes [Byte.x50; Byte.x4e; Byte.x47])
  | _ => Raise (APIError "model loading")
  end.

Definition sample_hf_client : InferenceClient :=
  {| text_to_image := sample_text_to_image |}.

Definition failing_hf_client : InferenceClient :=
  {| text_to_image := λ _, Raise (APIError "model loading") |}.

Definition sample_config : Config :=
  {| gemini_api_key := "key-1";
     gemini_client := Some sample_gemini_client;
     hf_client := Some sample_hf_client |}.

Definition failing_render_config : Config :=
  {| gemini_api_key := "key-1";
     gemini_client := Some sample_gemini_client;
     hf_client := Some failing_hf_client |}.

(** Two readings of the clock within one second. *)
Definition clock_a : Q := 17000000002 # 10.
Definition clock_b : Q := 17000000009 # 10.

(** A session in which the bottles were uploaded, then analysed, then
    rendered; and one in which the unlucky picture was uploaded. *)
Definition uploaded_app : App :=
  exec (upload_handler bottles clock_a) initial_app.

Definition analysed_app : App :=
  exec (analyze_image_callback (H := sample_libraries) sample_config) uploaded_app.

Definition rendered_app : App :=
  exec (generate_image_callback (H := sample_libraries) sample_config) analysed_app.

Definition unlucky_app : App :=
  exec (upload_handler unlucky clock_a) initial_app.

(** A reading of the clock one second after [clock_a]. *)
Definition clock_c : Q := 17000000012 # 10.

(** The same services reached with another key, and a configuration without
    an analysis client. *)
Definition other_key_config : Config :=
  {| gemini_api_key := "key-2";
     gemini_client := Some sample_gemini_client;
     hf_client := Some sample_hf_client |}.

Definition no_client_config : Config :=
  {| gemini_api_key := "key-1"; gemini_client := None; hf_client := None |}.

(** An analysis service whose every answer is blocked by the safety filter. *)
Definition blocking_gemini_client : GeminiClient :=
  {| generate_content := λ _,
       Ok {| text := None; candidates := [{| finish_reason := Some SAFETY |}] |} |}.

(** The session after the rendering of the lamp was asked for again while
    the rendering service was unavailable. *)
Definition failed_app : App :=
  exec (generate_image_callback (H := sample_libraries) failing_render_config)
       rendered_app.

(** [{"design_title": "Lamp", "material_breakdown": [{"material_name":
      "Glue"}]}]: a blueprint whose only material has no quantity, and a
    session that holds it. *)
Definition glue_blueprint : dict :=
  list_to_map
    [ ("design_title", JStr "Lamp");
      ("material_breakdown",
        JArr [JObj (list_to_map [ ("material_name", JStr "Glue") ])]) ].

Definition glue_app : App :=
  {| session_state :=
       {| uploaded_file_obj := Some scraps;
          unique_id := Some 1700000000;
          blueprint_data := Some glue_blueprint;
          vis_prompt := JNull;
          generated_image_obj := None;
          last_generation_status := None |};
     cache_data := ∅;
     log := [] |}.

(** A page on which nothing was dropped or pressed, and a display that
    accepts every file. *)
Definition idle : main_script.Interaction :=
  {| main_script.dropped_file := None;
     main_script.clock := clock_b;
     main_script.pressed_upload_new := false;
     main_script.pressed_analyze := false;
     main_script.pressed_generate := false |}.

Definition sample_st_image (file : UploadedFile) : exc () := Ok ().

End samples.

(** ** Properties *)

(** Unfolds the monad and the session-state assignments. *)
Ltac unfold_M :=
  unfold exec, reset_app, upload_handler,
    set_uploaded_file_obj, set_unique_id, set_blueprint_data, set_vis_prompt,
    set_generated_image_obj, set_last_generation_status, modify_session,
    get_session, st_error, emit, call_generate_content, call_text_to_image,
    try_except, lift, mbind, M_bind, bind, mret, M_ret, ret in *.

Section properties.
Context `{Libraries}.

(** *** The analysis function and its memo table *)

(** The body of the analysis function never raises, touches neither the
    session nor the table, and logs one request when it has a client and an
    image. *)
Lemma run_gemini_analysis_body_eq cfg image_obj key id app :
  run_gemini_analysis_body cfg image_obj key id app =
    match gemini_client cfg, image_obj with
    | Some client, Some image =>
        match analysis_attempt client image with
        | Ok (vis, blueprint) =>
            (Ok (Some blueprint, vis),
             {| session_state := session_state app;
                cache_data := cache_data app;
                log := log app ++ [RemoteGenerateContent (analysis_request image)] |})
        | Raise e =>
            (Ok (None, JNull),
             {| session_state := session_state app;
                cache_data := cache_data app;
                log := log app ++ [RemoteGenerateContent (analysis_request image);
                                   StError (GeminiAPIError e)] |})
        end
    | _, _ => (Ok (None, JNull), app)
    end.
Proof.
  unfold run_gemini_analysis_body, analysis_attempt.
  destruct (gemini_client cfg) as [client|]; [|done].
  destruct image_obj as [image|]; [|done].
  unfold_M. simpl.
  destruct (generate_content client (analysis_request image)) as [response|e]; simpl.
  - destruct (json_loads_text (text response)) as [blueprint|e]; simpl.
    + destruct (pop blueprint "visualization_prompt" JNull) as [[vis d]|e]; simpl.
      * done.
      * by rewrite <- app_assoc.
    + by rewrite <- app_assoc.
  - by rewrite <- app_assoc.
Qed.

Lemma remote_calls_app l1 l2 :
  remote_calls (l1 ++ l2) = remote_calls l1 ++ remote_calls l2.
Proof. apply filter_app. Qed.

Lemma remote_calls_replayed (messages : list error_message) :
  remote_calls (StError <$> messages) = [].
Proof. induction messages as [|m l IH]; [done|]. simpl. apply IH. Qed.

(** A hit: the stored value comes back, the stored elements are replayed,
    and nothing else happens. *)
Lemma st_cache_data_hit key body app entry :
  cache_data app !! key = Some entry →
  st_cache_data key body app =
    (Ok (value entry),
     {| session_state := session_state app;
        cache_data := cache_data app;
        log := log app ++ (StError <$> replayed entry) |}).
Proof. intros Hhit. unfold st_cache_data. by rewrite Hhit. Qed.

(** A miss of the analysis function: the body runs and its result is
    stored under the key. *)
Lemma run_gemini_analysis_miss cfg image_obj key id app :
  cache_data app !! (key, id) = None →
  ∃ v events,
    run_gemini_analysis_body cfg image_obj key id
      {| session_state := session_state app; cache_data := cache_data app; log := [] |}
    = (Ok v, {| session_state := session_state app;
                cache_data := cache_data app;
                log := events |})
    ∧ run_gemini_analysis cfg image_obj key id app =
        (Ok v,
         {| session_state := session_state app;
            cache_data := <[(key, id) := {| value := v; replayed := errors_of events |}]>
                            (cache_data app);
            log := log app ++ events |}).
Proof.
  intros Hmiss. unfold run_gemini_analysis, st_cache_data. rewrite Hmiss.
  rewrite run_gemini_analysis_body_eq. simpl.
  destruct (gemini_client cfg) as [client|]; [|by eexists _, _].
  destruct image_obj as [image|]; [|by eexists _, _].
  destruct (analysis_attempt client image) as [[vis d]|e]; by eexists _, _.
Qed.

(** The analysis function always returns, whatever the table holds; it
    leaves the session alone and stores its result under the pair of the key
    and the identifier, touching no other entry. *)
Lemma run_gemini_analysis_returns cfg image_obj key id app :
  ∃ v entry events,
    run_gemini_analysis cfg image_obj key id app =
      (Ok v, {| session_state := session_state app;
                cache_data := <[(key, id) := entry]> (cache_data app);
                log := log app ++ events |})
    ∧ value entry = v.
Proof.
  destruct (cache_data app !! (key, id)) as [entry|] eqn:Hlook.
  - exists (value entry), entry, (StError <$> replayed entry). split; [|done].
    unfold run_gemini_analysis. rewrite (st_cache_data_hit _ _ _ _ Hlook).
    by rewrite insert_id.
  - destruct (run_gemini_analysis_miss cfg image_obj key id app Hlook)
      as (v & events & _ & Hrun).
    by eexists v, _, events.
Qed.

(** C1 (amended).  The memo table of the analysis function is keyed by the
    analysis credential and the item identifier, and by nothing else: a call
    always returns; its result is then stored under that pair, no other
    entry being touched; and every later call with the same pair, whatever
    image and whatever client it is given, returns the same result from the
    table, issuing no remote call and changing neither the table nor the
    session.  The content of the item is not part of the key. *)
Theorem analysis_memoized_by_key_and_identifier
    cfg cfg' image_obj image_obj' key id app :
  ∃ v entry,
    let app1 := exec (run_gemini_analysis cfg image_obj key id) app in
    let app2 := exec (run_gemini_analysis cfg' image_obj' key id) app1 in
    (run_gemini_analysis cfg image_obj key id app).1 = Ok v
    ∧ cache_data app1 !! (key, id) = Some entry
    ∧ value entry = v
    ∧ (∀ k, k ≠ (key, id) → cache_data app1 !! k = cache_data app !! k)
    ∧ (run_gemini_analysis cfg' image_obj' key id app1).1 = Ok v
    ∧ remote_calls (log app2) = remote_calls (log app1)
    ∧ cache_data app2 = cache_data app1
    ∧ session_state app2 = session_state app1.
Proof.
  destruct (run_gemini_analysis_returns cfg image_obj key id app)
    as (v & entry & events & Hrun & Hval).
  exists v, entry. unfold exec. rewrite Hrun. simpl.
  assert (Hhit : (<[(key, id) := entry]> (cache_data app) : Cache) !! (key, id)
                 = Some entry) by apply lookup_insert_eq.
  unfold run_gemini_analysis at 1 2 3 4.
  rewrite (st_cache_data_hit (key, id) _
             {| session_state := session_state app;
                cache_data := <[(key, id) := entry]> (cache_data app);
                log := log app ++ events |} entry Hhit).
  simpl. repeat split; try done.
  - intros k Hk. by rewrite lookup_insert_ne.
  - by rewrite Hval.
  - by rewrite remote_calls_app, remote_calls_replayed, app_nil_r.
Qed.

(** A pair of key and identifier that is not in the table sends the image
    to the service, once. *)
Lemma analysis_miss_calls_service cfg client image key id app :
  cache_data app !! (key, id) = None →
  gemini_client cfg = Some client →
  remote_calls (log (exec (run_gemini_analysis cfg (Some image) key id) app))
  = remote_calls (log app) ++ [RemoteGenerateContent (analysis_request image)].
Proof.
  intros Hmiss Hclient. unfold exec, run_gemini_analysis, st_cache_data.
  rewrite Hmiss, run_gemini_analysis_body_eq, Hclient.
  destruct (analysis_attempt client image) as [[vis blueprint]|e]; simpl;
    by rewrite remote_calls_app.
Qed.

(** *** The callbacks *)

(** The analysis callback always returns.  Either it leaves the session as it
    was, or it stores a non-empty blueprint with its prompt and clears the
    concept image and the status; the uploaded file and its identifier stay
    in both cases. *)
Lemma analyze_image_callback_cases cfg app :
  ∃ cache' events,
    analyze_image_callback cfg app =
      (Ok (), {| session_state := session_state app;
                 cache_data := cache';
                 log := log app ++ events |})
    ∨ ∃ blueprint vis,
        truthy (JObj blueprint) = true
        ∧ analyze_image_callback cfg app =
            (Ok (),
             {| session_state :=
                  {| uploaded_file_obj := uploaded_file_obj (session_state app);
                     unique_id := unique_id (session_state app);
                     blueprint_data := Some blueprint;
                     vis_prompt := vis;
                     generated_image_obj := None;
                     last_generation_status := None |};
                cache_data := cache';
                log := log app ++ events |}).
Proof.
  unfold analyze_image_callback. unfold_M. simpl.
  destruct (uploaded_file_obj (session_state app)) as [uploaded_file|] eqn:Hup.
  - destruct (Image_open uploaded_file) as [image_pil|e].
    + destruct (run_gemini_analysis_returns cfg (Some image_pil)
                  (gemini_api_key cfg) (unique_id (session_state app)) app)
        as ([blueprint vis] & entry & events & -> & _).
      exists (<[(gemini_api_key cfg, unique_id (session_state app)) := entry]>
                (cache_data app)), events.
      destruct blueprint as [d|]; simpl; [|by left].
      destruct (negb (bool_decide (d = ∅))) eqn:Hd; [|by left].
      right. exists d, vis. split; [exact Hd | simpl; by rewrite Hup].
    + exists (cache_data app), [StError (ErrorProcessingImage e)]. by left.
  - exists (cache_data app), [StError UploadAnImageFirst]. by left.
Qed.

(** The rendering function always returns and changes nothing but the
    log. *)
Lemma generate_image_with_hf_returns cfg prompt_text app :
  ∃ gen_image events,
    generate_image_with_hf cfg prompt_text app =
      (Ok gen_image, {| session_state := session_state app;
                        cache_data := cache_data app;
                        log := log app ++ events |}).
Proof.
  unfold generate_image_with_hf.
  destruct (hf_client cfg) as [client|]; unfold_M; simpl; [|by eexists _, _].
  destruct (text_to_image client (render_request prompt_text)) as [[image|data]|e];
    simpl.
  - by eexists _, _.
  - destruct (Image_open data) as [image|e]; simpl.
    + by eexists _, _.
    + rewrite <- app_assoc. by eexists _, _.
  - rewrite <- app_assoc. by eexists _, _.
Qed.

(** What the rendering callback does, by the truth of the stored prompt and
    the outcome of the rendering function. *)
Lemma generate_image_callback_eq cfg app :
  generate_image_callback cfg app =
    if negb (truthy (vis_prompt (session_state app)))
    then set_last_generation_status (Some "no_prompt") app
    else
      match generate_image_with_hf cfg (vis_prompt (session_state app)) app with
      | (Ok (Some image), app') =>
          (set_generated_image_obj (Some image);;
           set_last_generation_status (Some "success")) app'
      | (Ok None, app') => set_last_generation_status (Some "failed") app'
      | (Raise e, app') => (Raise e, app')
      end.
Proof.
  unfold generate_image_callback. unfold_M. simpl.
  destruct (negb (truthy (vis_prompt (session_state app)))); [done|].
  destruct (generate_image_with_hf cfg (vis_prompt (session_state app)) app)
    as [[[image|]|e] app']; done.
Qed.

(** C5.  With no prompt stored, be it [None] or the empty string, the
    rendering callback returns at once: the status becomes [no_prompt], every
    other field of the session and the memo table stay as they were, and the
    log is unchanged, so no remote request was issued. *)
Theorem render_without_prompt_sets_no_prompt cfg app :
  vis_prompt (session_state app) = JNull
  ∨ vis_prompt (session_state app) = JStr EmptyString →
  generate_image_callback cfg app =
    (Ok (),
     {| session_state :=
          {| uploaded_file_obj := uploaded_file_obj (session_state app);
             unique_id := unique_id (session_state app);
             blueprint_data := blueprint_data (session_state app);
             vis_prompt := vis_prompt (session_state app);
             generated_image_obj := generated_image_obj (session_state app);
             last_generation_status := Some "no_prompt" |};
        cache_data := cache_data app;
        log := log app |}).
Proof.
  intros Hprompt. rewrite generate_image_callback_eq.
  assert (Hfalse : negb (truthy (vis_prompt (session_state app))) = true)
    by (by destruct Hprompt as [-> | ->]).
  by rewrite Hfalse.
Qed.

(** C10.  When a concept image is stored from an earlier rendering and a new
    rendering of the stored prompt fails, the callback returns normally and
    changes the status to [failed] and nothing else: the stored image is
    still there, as are the file, its identifier, the blueprint, the prompt
    and the memo table. *)
Theorem failed_render_changes_status_only cfg app image :
  generated_image_obj (session_state app) = Some image →
  truthy (vis_prompt (session_state app)) = true →
  (generate_image_with_hf cfg (vis_prompt (session_state app)) app).1 = Ok None →
  (generate_image_callback cfg app).1 = Ok ()
  ∧ session_state (exec (generate_image_callback cfg) app) =
      {| uploaded_file_obj := uploaded_file_obj (session_state app);
         unique_id := unique_id (session_state app);
         blueprint_data := blueprint_data (session_state app);
         vis_prompt := vis_prompt (session_state app);
         generated_image_obj := Some image;
         last_generation_status := Some "failed" |}
  ∧ cache_data (exec (generate_image_callback cfg) app) = cache_data app.
Proof.
  intros Himage Hprompt Hfails. unfold exec.
  rewrite generate_image_callback_eq, Hprompt. simpl.
  destruct (generate_image_with_hf_returns cfg (vis_prompt (session_state app)) app)
    as (gen_image & events & Hgen).
  rewrite Hgen in Hfails |- *. simpl in Hfails. injection Hfails as ->.
  unfold_M. simpl. by rewrite Himage.
Qed.

(** C6.  Neither callback ever raises.  The analysis callback never changes
    the uploaded file or its identifier, and unless it stores a new non-empty
    blueprint it leaves the whole session as it was; the rendering callback
    never changes the blueprint, the prompt, the file or the identifier. *)
Theorem failures_preserve_progress cfg app :
  let analyzed := analyze_image_callback cfg app in
  let rendered := generate_image_callback cfg app in
  (analyzed.1 = Ok ()
   ∧ uploaded_file_obj (session_state analyzed.2) = uploaded_file_obj (session_state app)
   ∧ unique_id (session_state analyzed.2) = unique_id (session_state app)
   ∧ (session_state analyzed.2 = session_state app
      ∨ ∃ blueprint, truthy (JObj blueprint) = true
                     ∧ blueprint_data (session_state analyzed.2) = Some blueprint))
  ∧ (rendered.1 = Ok ()
     ∧ blueprint_data (session_state rendered.2) = blueprint_data (session_state app)
     ∧ vis_prompt (session_state rendered.2) = vis_prompt (session_state app)
     ∧ uploaded_file_obj (session_state rendered.2) = uploaded_file_obj (session_state app)
     ∧ unique_id (session_state rendered.2) = unique_id (session_state app)).
Proof.
  simpl. split.
  - destruct (analyze_image_callback_cases cfg app)
      as (cache' & events & [-> | (blueprint & vis & Htrue & ->)]); simpl.
    + repeat split; by left.
    + repeat split. right. by exists blueprint.
  - rewrite generate_image_callback_eq.
    destruct (negb (truthy (vis_prompt (session_state app)))); [done|].
    destruct (generate_image_with_hf_returns cfg (vis_prompt (session_state app)) app)
      as ([image|] & events & ->); done.
Qed.

(** C3 (amended).  From every state, the reset returns normally and leaves
    the session exactly as a first script run sets it up: no file, no
    identifier, no blueprint, no prompt, no concept image, no status.  The
    memo table is not touched, so the entries of the discarded item remain
    in it under the old identifier; nothing is logged. *)
Theorem reset_app_clears_session_only app :
  reset_app app =
    (Ok (), {| session_state := initial_session_state;
               cache_data := cache_data app;
               log := log app |}).
Proof. done. Qed.

(** What the analysis callback does, by the stored file, the decoding and
    the result of the memoized analysis. *)
Lemma analyze_image_callback_eq cfg app :
  analyze_image_callback cfg app =
    match uploaded_file_obj (session_state app) with
    | None => st_error UploadAnImageFirst app
    | Some uploaded_file =>
        match Image_open uploaded_file with
        | Raise e => st_error (ErrorProcessingImage e) app
        | Ok image_pil =>
            match run_gemini_analysis cfg (Some image_pil) (gemini_api_key cfg)
                    (unique_id (session_state app)) app with
            | (Ok (blueprint, vis), app') =>
                if blueprint_truthy blueprint
                then (Ok (),
                      {| session_state :=
                           {| uploaded_file_obj := uploaded_file_obj (session_state app');
                              unique_id := unique_id (session_state app');
                              blueprint_data := blueprint;
                              vis_prompt := vis;
                              generated_image_obj := None;
                              last_generation_status := None |};
                         cache_data := cache_data app';
                         log := log app' |})
                else (Ok (), app')
            | (Raise e, app') => (Raise e, app')
            end
        end
    end.
Proof.
  unfold analyze_image_callback. unfold_M. simpl.
  destruct (uploaded_file_obj (session_state app)) as [uploaded_file|]; [|done].
  destruct (Image_open uploaded_file) as [image_pil|e]; [|done].
  destruct (run_gemini_analysis cfg (Some image_pil) (gemini_api_key cfg)
              (unique_id (session_state app)) app) as [[[blueprint vis]|e] app']; [|done].
  by destruct (blueprint_truthy blueprint).
Qed.

(** A first analysis that fails: the failure value is returned and stored,
    with the error that was displayed. *)
Lemma run_gemini_analysis_failure cfg client image key id e app :
  cache_data app !! (key, id) = None →
  gemini_client cfg = Some client →
  analysis_attempt client image = Raise e →
  run_gemini_analysis cfg (Some image) key id app =
    (Ok (None, JNull),
     {| session_state := session_state app;
        cache_data := <[(key, id) := {| value := (None, JNull);
                                        replayed := [GeminiAPIError e] |}]>
                        (cache_data app);
        log := log app ++ [RemoteGenerateContent (analysis_request image);
                           StError (GeminiAPIError e)] |}).
Proof.
  intros Hmiss Hclient Hfails. unfold run_gemini_analysis, st_cache_data.
  rewrite Hmiss, run_gemini_analysis_body_eq, Hclient, Hfails. done.
Qed.

(** C9.  When the first analysis of an uploaded item fails, because the
    remote call raised or its answer could not be decoded, the analysis
    function returns (None, None) and that value is stored under the current
    key and identifier.  From then on every analysis with the same key and
    identifier, whatever client is now configured, returns the stored
    failure: no remote request is issued, the table and the session stay as
    they are.  Only another identifier or another key leaves the entry
    behind. *)
Theorem failed_analysis_is_memoized cfg client uploaded_file image e app :
  uploaded_file_obj (session_state app) = Some uploaded_file →
  Image_open uploaded_file = Ok image →
  gemini_client cfg = Some client →
  cache_data app !! (gemini_api_key cfg, unique_id (session_state app)) = None →
  analysis_attempt client image = Raise e →
  let key := gemini_api_key cfg in
  let id := unique_id (session_state app) in
  let app1 := exec (analyze_image_callback cfg) app in
  (run_gemini_analysis cfg (Some image) key id app).1 = Ok (None, JNull)
  ∧ session_state app1 = session_state app
  ∧ cache_data app1 !! (key, id)
    = Some {| value := (None, JNull); replayed := [GeminiAPIError e] |}
  ∧ ∀ cfg' image_obj',
      gemini_api_key cfg' = key →
      let again := run_gemini_analysis cfg' image_obj' key id app1 in
      let app2 := exec (analyze_image_callback cfg') app1 in
      again.1 = Ok (None, JNull)
      ∧ remote_calls (log again.2) = remote_calls (log app1)
      ∧ session_state app2 = session_state app
      ∧ cache_data app2 = cache_data app1
      ∧ remote_calls (log app2) = remote_calls (log app1).
Proof.
  intros Hfile Himage Hclient Hmiss Hfails. simpl.
  pose proof (run_gemini_analysis_failure cfg client image _ _ e app
                Hmiss Hclient Hfails) as Hfirst.
  unfold exec. rewrite (analyze_image_callback_eq cfg app), Hfile, Himage, Hfirst.
  simpl. split; [done|]. split; [done|]. split; [apply lookup_insert_eq|].
  intros cfg' image_obj' Hkey.
  set (app1 := {| session_state := session_state app;
                  cache_data := <[(gemini_api_key cfg, unique_id (session_state app))
                                  := {| value := (None, JNull);
                                        replayed := [GeminiAPIError e] |}]>
                                  (cache_data app);
                  log := log app ++ [RemoteGenerateContent (analysis_request image);
                                     StError (GeminiAPIError e)] |}).
  assert (Hhit : ∀ image_obj,
            run_gemini_analysis cfg' image_obj (gemini_api_key cfg)
              (unique_id (session_state app)) app1
            = (Ok (None, JNull),
               {| session_state := session_state app;
                  cache_data := cache_data app1;
                  log := log app1 ++ [StError (GeminiAPIError e)] |})).
  { intros image_obj. unfold run_gemini_analysis.
    by rewrite (st_cache_data_hit _ _ app1 _ (lookup_insert_eq _ _ _)). }
  rewrite (analyze_image_callback_eq cfg' app1). simpl.
  rewrite Hfile, Himage, Hkey, !Hhit. simpl.
  repeat split; by rewrite remote_calls_app, app_nil_r.
Qed.

(** *** The sessions the user interface can reach *)




(** *** Blueprints and the schema *)

(** A value of the shape of the application's schema is a dictionary with a
    string under [visualization_prompt]; what is left of it without that key
    is not empty and has the shape of the five-field schema. *)
Lemma conforms_DESIGN_SCHEMA_pop v :
  conforms DESIGN_SCHEMA v = true →
  ∃ m p,
    v = JObj m
    ∧ m !! "visualization_prompt" = Some (JStr p)
    ∧ truthy (JObj (delete "visualization_prompt" m)) = true
    ∧ conforms design_agent.DESIGN_SCHEMA (JObj (delete "visualization_prompt" m)) = true.
Proof.
  destruct v as [| | | | | |m]; try discriminate. intros Hshape.
  unfold DESIGN_SCHEMA in Hshape. cbn [conforms forallb fst snd] in Hshape.
  apply andb_prop in Hshape as [Hrequired Hproperties].
  repeat rewrite andb_true_iff in Hrequired.
  destruct Hrequired as (R1 & R2 & R3 & R4 & R5 & R6 & _).
  repeat rewrite andb_true_iff in Hproperties.
  destruct Hproperties as (P1 & P2 & P3 & P4 & P5 & P6 & _).
  destruct (m !! "visualization_prompt") as [x|] eqn:Hprompt.
  - destruct x as [| | | |p| |]; try discriminate P6.
    exists m, p. split; [done|]. split; [done|]. split.
    + cbn [truthy]. apply negb_true_iff, bool_decide_eq_false. intros Hempty.
      apply bool_decide_eq_true in R1 as [x Hx].
      assert (Hl : delete "visualization_prompt" m !! "design_title" = Some x)
        by (by rewrite lookup_delete_ne).
      by rewrite Hempty, lookup_empty in Hl.
    + unfold design_agent.DESIGN_SCHEMA. cbn [conforms forallb fst snd].
      rewrite !lookup_delete_ne by done.
      by rewrite R1, R2, R3, R4, R5, P1, P2, P3, P4, P5.
  - apply bool_decide_eq_true in R6 as [x Hx]. discriminate Hx.
Qed.

(** What the five-field schema says of a dictionary, in plain terms: the
    five fields are there and the score is an integer from 1 to 10. *)
Lemma conforms_blueprint_fields (blueprint : dict) :
  conforms design_agent.DESIGN_SCHEMA (JObj blueprint) = true →
  (∀ k, k ∈ ["design_title"; "design_type"; "material_breakdown";
             "assembly_steps_summary"; "upcycle_score"] →
        is_Some (blueprint !! k))
  ∧ ∃ score, blueprint !! "upcycle_score" = Some (JInt score) ∧ 1 ≤ score ≤ 10.
Proof.
  intros Hshape.
  unfold design_agent.DESIGN_SCHEMA in Hshape. cbn [conforms forallb fst snd] in Hshape.
  apply andb_prop in Hshape as [Hrequired Hproperties].
  repeat rewrite andb_true_iff in Hrequired.
  destruct Hrequired as (R1 & R2 & R3 & R4 & R5 & _).
  repeat rewrite andb_true_iff in Hproperties.
  destruct Hproperties as (_ & _ & _ & _ & P5 & _).
  apply bool_decide_eq_true in R1, R2, R3, R4, R5.
  split.
  - intros k Hk. repeat (apply elem_of_cons in Hk as [-> | Hk]; [done|]).
    by apply elem_of_nil in Hk.
  - destruct R5 as [x Hx]. rewrite Hx in P5.
    destruct x as [| |score| | | |]; try discriminate P5.
    exists score. split; [done|].
    apply andb_prop in P5 as [Hlo Hhi]. simpl in Hlo, Hhi. lia.
Qed.

(** A first analysis that succeeds: the blueprint and the prompt are
    returned and stored. *)
Lemma run_gemini_analysis_success cfg client image key id vis blueprint app :
  cache_data app !! (key, id) = None →
  gemini_client cfg = Some client →
  analysis_attempt client image = Ok (vis, blueprint) →
  run_gemini_analysis cfg (Some image) key id app =
    (Ok (Some blueprint, vis),
     {| session_state := session_state app;
        cache_data := <[(key, id) := {| value := (Some blueprint, vis);
                                        replayed := [] |}]>
                        (cache_data app);
        log := log app ++ [RemoteGenerateContent (analysis_request image)] |}).
Proof.
  intros Hmiss Hclient Hworks. unfold run_gemini_analysis, st_cache_data.
  rewrite Hmiss, run_gemini_analysis_body_eq, Hclient, Hworks. done.
Qed.

(** C7 (amended).  For a decodable uploaded image that is analysed for the
    first time, the callback returns normally and does one of two things.
    When the service answers with a JSON object, it stores that object
    without its visualisation prompt as the blueprint, unless nothing is
    left of it; the answer is not checked against the schema.  In every
    other case (the call raised, the text was not JSON, the JSON was not an
    object) the session stays as it was.  Hence the stored blueprint has all
    five required fields and a score from 1 to 10 whenever the answer of the
    service has the shape of the schema it was asked for. *)
Theorem analysis_stores_what_the_service_returned
    cfg client uploaded_file image app :
  uploaded_file_obj (session_state app) = Some uploaded_file →
  Image_open uploaded_file = Ok image →
  gemini_client cfg = Some client →
  cache_data app !! (gemini_api_key cfg, unique_id (session_state app)) = None →
  let app' := exec (analyze_image_callback cfg) app in
  (analyze_image_callback cfg app).1 = Ok ()
  ∧ match analysis_attempt client image with
    | Ok (vis, blueprint) =>
        if truthy (JObj blueprint)
        then session_state app' =
               {| uploaded_file_obj := Some uploaded_file;
                  unique_id := unique_id (session_state app);
                  blueprint_data := Some blueprint;
                  vis_prompt := vis;
                  generated_image_obj := None;
                  last_generation_status := None |}
        else session_state app' = session_state app
    | Raise _ => session_state app' = session_state app
    end
  ∧ ∀ response v,
      generate_content client (analysis_request image) = Ok response →
      json_loads_text (text response) = Ok v →
      conforms DESIGN_SCHEMA v = true →
      ∃ blueprint p score,
        blueprint_data (session_state app') = Some blueprint
        ∧ vis_prompt (session_state app') = JStr p
        ∧ (∀ k, k ∈ ["design_title"; "design_type"; "material_breakdown";
                     "assembly_steps_summary"; "upcycle_score"] →
                is_Some (blueprint !! k))
        ∧ blueprint !! "upcycle_score" = Some (JInt score)
        ∧ 1 ≤ score ≤ 10.
Proof.
  intros Hfile Himage Hclient Hmiss. cbv zeta. unfold exec.
  rewrite analyze_image_callback_eq, Hfile, Himage.
  destruct (analysis_attempt client image) as [[vis blueprint]|e] eqn:Hattempt.
  - rewrite (run_gemini_analysis_success cfg client image _ _ vis blueprint app
               Hmiss Hclient Hattempt).
    cbn [blueprint_truthy].
    destruct (truthy (JObj blueprint)) eqn:Htrue.
    + split_and!; [done | by cbn; rewrite Hfile |].
      intros response v Hresponse Hloads Hshape.
      destruct (conforms_DESIGN_SCHEMA_pop v Hshape) as (m & p & -> & Hp & _ & Hfive).
      unfold analysis_attempt in Hattempt. rewrite Hresponse in Hattempt.
      cbn [exc_bind] in Hattempt. rewrite Hloads in Hattempt.
      cbn [exc_bind pop] in Hattempt. rewrite Hp in Hattempt.
      injection Hattempt as <- <-.
      destruct (conforms_blueprint_fields _ Hfive) as (Hfields & score & Hscore & Hrange).
      by exists (delete "visualization_prompt" m), p, score.
    + split_and!; [done | done |].
      intros response v Hresponse Hloads Hshape.
      destruct (conforms_DESIGN_SCHEMA_pop v Hshape) as (m & p & -> & Hp & Hleft & _).
      unfold analysis_attempt in Hattempt. rewrite Hresponse in Hattempt.
      cbn [exc_bind] in Hattempt. rewrite Hloads in Hattempt.
      cbn [exc_bind pop] in Hattempt.
      injection Hattempt as <- <-. by rewrite Hleft in Htrue.
  - rewrite (run_gemini_analysis_failure cfg client image _ _ e app
               Hmiss Hclient Hattempt).
    split_and!; [done | done |].
    intros response v Hresponse Hloads Hshape.
    destruct (conforms_DESIGN_SCHEMA_pop v Hshape) as (m & p & -> & _).
    unfold analysis_attempt in Hattempt. rewrite Hresponse in Hattempt.
    cbn [exc_bind] in Hattempt. rewrite Hloads in Hattempt. discriminate Hattempt.
Qed.

(** *** Empty answers of the analysis service *)

(** X14.  The stand-alone script tells the empty answers apart: whenever the
    text of the answer is empty it prints the empty-response report and
    returns, without decoding anything, and the report names the safety
    filter exactly when the first candidate's finish reason is [SAFETY]. *)
Lemma design_agent_reports_empty_text image_path client image response :
  exc_bind (open_path image_path) Image_open = Ok image →
  generate_content client (design_agent.request image) = Ok response →
  text_truthy (text response) = false →
  design_agent.analyze_waste_and_design image_path client =
    (design_agent.PrintSendingRequest :: design_agent.report_empty_text response,
     Ok ())
  ∧ (design_agent.PrintBlockedBySafetyFilter ∈ design_agent.report_empty_text response
     ↔ ∃ c rest, candidates response = c :: rest ∧ finish_reason c = Some SAFETY).
Proof.
  intros Hopen Hresponse Hempty. split.
  - unfold design_agent.analyze_waste_and_design.
    by rewrite Hopen, Hresponse, Hempty.
  - unfold design_agent.report_empty_text.
    destruct (candidates response) as [|c rest].
    + split.
      * intros Hin. repeat (apply elem_of_cons in Hin as [Hin | Hin]; [done|]).
        by apply elem_of_nil in Hin.
      * by intros (c & rest & Hnil & _).
    + destruct (finish_reason c) as [reason|] eqn:Hreason.
      * destruct (decide (reason = SAFETY)) as [-> | Hother].
        -- split; [by exists c, rest|]. intros _. apply elem_of_cons. right.
           apply elem_of_cons. by left.
        -- split.
           ++ intros Hin.
              repeat (apply elem_of_cons in Hin as [Hin | Hin]; [done|]).
              by apply elem_of_nil in Hin.
           ++ intros (c' & rest' & Hcons & Hsafety).
              injection Hcons as <- <-. congruence.
      * split.
        -- intros Hin. repeat (apply elem_of_cons in Hin as [Hin | Hin]; [done|]).
           by apply elem_of_nil in Hin.
        -- intros (c' & rest' & Hcons & Hsafety).
           injection Hcons as <- <-. congruence.
Qed.

(** The application does not: an answer whose text is empty makes the
    decoding raise, [TypeError] for [None] and [JSONDecodeError] for the
    empty string, whatever the candidates say. *)
Lemma analysis_attempt_empty_text client image response :
  generate_content client (analysis_request image) = Ok response →
  text_truthy (text response) = false →
  analysis_attempt client image =
    Raise (match text response with None => TypeError | Some _ => JSONDecodeError end).
Proof.
  intros Hresponse Hempty. unfold analysis_attempt. rewrite Hresponse.
  cbn [exc_bind]. destruct (text response) as [[|a s]|]; [|done|done].
  cbn [json_loads_text]. by rewrite json_loads_empty.
Qed.

End properties.

(** ** Concrete runs *)

Section runs.
Import samples.
#[local] Existing Instance sample_libraries.

(** C1, as stated, fails: two items of different content, analysed with one
    key under one identifier, share one entry of the memo table.  On its own
    each picture gets its own blueprint; after the bottles, the crates get
    the lamp of the bottles, and the table still has a single entry. *)
Lemma cache_key_ignores_item_content :
  let run file :=
    run_gemini_analysis sample_config (Some (Raster file)) "key-1" (Some 1700000000) in
  let app1 := exec (run bottles) initial_app in
  bottles ≠ crates
  ∧ (run bottles initial_app).1 = Ok (Some lamp_blueprint, JStr "a lamp made of bottles")
  ∧ (run crates initial_app).1 = Ok (Some shelf_blueprint, JStr "a shelf made of crates")
  ∧ (run crates app1).1 = Ok (Some lamp_blueprint, JStr "a lamp made of bottles")
  ∧ size (cache_data (exec (run crates) app1)) = 1%nat.
Proof. split_and!; [discriminate | reflexivity ..]. Qed.

(** C2: the run in which a second upload gets the identifier of the first.
    The bottles are uploaded and analysed, the session is reset, and the
    crates are uploaded within the same second of the clock: the identifier
    is the same, the analysis of the crates finds the entry of the bottles,
    sends nothing to the service, and the session shows the lamp of the
    bottles against the picture of the crates. *)
Theorem same_second_upload_is_served_stale_blueprint :
  let app1 := exec (upload_handler bottles clock_a) initial_app in
  let app2 := exec (analyze_image_callback sample_config) app1 in
  let app3 := exec reset_app app2 in
  let app4 := exec (upload_handler crates clock_b) app3 in
  let app5 := exec (analyze_image_callback sample_config) app4 in
  ¬ (clock_a == clock_b)%Q
  ∧ uploaded_file_obj (session_state app4) = Some crates
  ∧ unique_id (session_state app1) = Some 1700000000
  ∧ unique_id (session_state app4) = Some 1700000000
  ∧ blueprint_data (session_state app4) = None
  ∧ blueprint_data (session_state app5) = Some lamp_blueprint
  ∧ vis_prompt (session_state app5) = JStr "a lamp made of bottles"
  ∧ remote_calls (log app5) = [RemoteGenerateContent (analysis_request (Raster bottles))]
  ∧ analysis_attempt sample_gemini_client (Raster crates)
    = Ok (JStr "a shelf made of crates", shelf_blueprint).
Proof.
  split_and!; [intros Heq; vm_compute in Heq; discriminate Heq | reflexivity ..].
Qed.

(** C3, as stated, fails: after the bottles were uploaded and analysed, a
    reset leaves their entry in the memo table, under their identifier. *)
Lemma reset_app_leaves_cache_entry :
  let app1 := exec (upload_handler bottles clock_a) initial_app in
  let app2 := exec (analyze_image_callback sample_config) app1 in
  let app3 := exec reset_app app2 in
  unique_id (session_state app2) = Some 1700000000
  ∧ session_state app3 = initial_session_state
  ∧ cache_data app3 !! ("key-1", Some 1700000000)
    = Some {| value := (Some lamp_blueprint, JStr "a lamp made of bottles");
              replayed := [] |}.
Proof. split_and!; reflexivity. Qed.

(** C7, as stated, fails: the picture decodes, the service answers with a
    JSON object of two fields and a score of 11, and the callback stores it
    as the blueprint. *)
Lemma incomplete_blueprint_is_stored :
  let app1 := exec (upload_handler scraps clock_a) initial_app in
  let app2 := exec (analyze_image_callback sample_config) app1 in
  Image_open scraps = Ok (Raster scraps)
  ∧ (analyze_image_callback sample_config app1).1 = Ok ()
  ∧ blueprint_data (session_state app2) = Some partial_dict
  ∧ partial_dict !! "design_type" = None
  ∧ partial_dict !! "upcycle_score" = Some (JInt 11)
  ∧ conforms design_agent.DESIGN_SCHEMA (JObj partial_dict) = false.
Proof. split_and!; reflexivity. Qed.

(** C8: the application on an answer the safety filter blocked.  The answer
    has no text and the finish reason [SAFETY]; the analysis function returns
    (None, None) and displays the [TypeError] of the decoder, exactly as it
    does for an empty answer without any reason, whereas the report of the
    stand-alone script on the same two answers differs. *)
Theorem app_reports_safety_block_as_generic_error :
  let run file :=
    run_gemini_analysis sample_config (Some (Raster file)) "key-1" (Some 1700000000)
      initial_app in
  let blocked := {| text := None; candidates := [{| finish_reason := Some SAFETY |}] |} in
  let empty := {| text := None; candidates := [] |} in
  generate_content sample_gemini_client (analysis_request (Raster flagged)) = Ok blocked
  ∧ generate_content sample_gemini_client (analysis_request (Raster blurred)) = Ok empty
  ∧ (run flagged).1 = Ok (None, JNull)
  ∧ errors_of (log (run flagged).2) = [GeminiAPIError TypeError]
  ∧ (run blurred).1 = Ok (None, JNull)
  ∧ errors_of (log (run blurred).2) = [GeminiAPIError TypeError]
  ∧ design_agent.report_empty_text blocked
    = [design_agent.PrintTroubleshootingEmptyResponse;
       design_agent.PrintBlockedBySafetyFilter;
       design_agent.PrintTryDifferentImage]
  ∧ design_agent.report_empty_text empty
    = [design_agent.PrintTroubleshootingEmptyResponse;
       design_agent.PrintEmptyNoSpecificReason].
Proof. split_and!; reflexivity. Qed.

(** C5, at a concrete input: the blank session has no prompt, and the
    rendering callback only sets its status. *)
Lemma render_without_prompt_witness :
  vis_prompt (session_state initial_app) = JNull
  ∧ generate_image_callback sample_config initial_app
    = set_last_generation_status (Some "no_prompt") initial_app.
Proof.
  split; [reflexivity|].
  apply (render_without_prompt_sets_no_prompt sample_config initial_app).
  left. reflexivity.
Defined.

(** C10, at a concrete input: the session holds the rendered lamp, the
    rendering service has become unavailable, and a second rendering changes
    the status only. *)
Lemma failed_render_witness :
  let image := Raster [Byte.x50; Byte.x4e; Byte.x47] in
  let app' := exec (generate_image_callback failing_render_config) rendered_app in
  generated_image_obj (session_state rendered_app) = Some image
  ∧ last_generation_status (session_state rendered_app) = Some "success"
  ∧ truthy (vis_prompt (session_state rendered_app)) = true
  ∧ (generate_image_with_hf failing_render_config
       (vis_prompt (session_state rendered_app)) rendered_app).1 = Ok None
  ∧ generated_image_obj (session_state app') = Some image
  ∧ last_generation_status (session_state app') = Some "failed"
  ∧ blueprint_data (session_state app') = Some lamp_blueprint.
Proof.
  cbv zeta.
  assert (Himage : generated_image_obj (session_state rendered_app)
                   = Some (Raster [Byte.x50; Byte.x4e; Byte.x47]))
    by reflexivity.
  assert (Hprompt : truthy (vis_prompt (session_state rendered_app)) = true)
    by reflexivity.
  assert (Hfails : (generate_image_with_hf failing_render_config
                      (vis_prompt (session_state rendered_app)) rendered_app).1
                   = Ok None)
    by reflexivity.
  destruct (failed_render_changes_status_only failing_render_config rendered_app
              _ Himage Hprompt Hfails) as (_ & Hsession & _).
  split_and!; [exact Himage | reflexivity | exact Hprompt | exact Hfails | ..];
    rewrite Hsession; reflexivity.
Defined.

(** C9, at a concrete input: the service answers the unlucky picture with a
    quota error; the failure is stored, and a second analysis leaves the
    session as it is and sends nothing. *)
Lemma failed_analysis_witness :
  let key := ("key-1", Some 1700000000) in
  let app1 := exec (analyze_image_callback sample_config) unlucky_app in
  let app2 := exec (analyze_image_callback sample_config) app1 in
  uploaded_file_obj (session_state unlucky_app) = Some unlucky
  ∧ Image_open unlucky = Ok (Raster unlucky)
  ∧ cache_data unlucky_app !! key = None
  ∧ analysis_attempt sample_gemini_client (Raster unlucky)
    = Raise (APIError "quota exceeded")
  ∧ cache_data app1 !! key
    = Some {| value := (None, JNull);
              replayed := [GeminiAPIError (APIError "quota exceeded")] |}
  ∧ session_state app2 = session_state unlucky_app
  ∧ remote_calls (log app2) = remote_calls (log app1).
Proof.
  cbv zeta.
  assert (Hfile : uploaded_file_obj (session_state unlucky_app) = Some unlucky)
    by reflexivity.
  assert (Himage : Image_open unlucky = Ok (Raster unlucky)) by reflexivity.
  assert (Hclient : gemini_client sample_config = Some sample_gemini_client)
    by reflexivity.
  assert (Hmiss : cache_data unlucky_app
                    !! (gemini_api_key sample_config,
                        unique_id (session_state unlucky_app)) = None)
    by reflexivity.
  assert (Hfails : analysis_attempt sample_gemini_client (Raster unlucky)
                   = Raise (APIError "quota exceeded"))
    by reflexivity.
  destruct (failed_analysis_is_memoized sample_config sample_gemini_client unlucky
              (Raster unlucky) (APIError "quota exceeded") unlucky_app
              Hfile Himage Hclient Hmiss Hfails)
    as (_ & _ & Hstored & Hlater).
  destruct (Hlater sample_config (Some (Raster unlucky)) eq_refl)
    as (_ & _ & Hsession & _ & Hcalls).
  split_and!;
    [exact Hfile | exact Himage | exact Hmiss | exact Hfails | exact Hstored
    | exact Hsession | exact Hcalls].
Defined.

(** C7, at a concrete input: the bottles decode, the service answers with a
    blueprint of the shape of the schema, and the stored blueprint has its
    five fields and a score within bounds. *)
Lemma analysis_stores_lamp_witness :
  let app' := exec (analyze_image_callback sample_config) uploaded_app in
  uploaded_file_obj (session_state uploaded_app) = Some bottles
  ∧ Image_open bottles = Ok (Raster bottles)
  ∧ cache_data uploaded_app !! ("key-1", Some 1700000000) = None
  ∧ conforms DESIGN_SCHEMA (JObj lamp_dict) = true
  ∧ ∃ blueprint p score,
      blueprint_data (session_state app') = Some blueprint
      ∧ vis_prompt (session_state app') = JStr p
      ∧ (∀ k, k ∈ ["design_title"; "design_type"; "material_breakdown";
                   "assembly_steps_summary"; "upcycle_score"] →
              is_Some (blueprint !! k))
      ∧ blueprint !! "upcycle_score" = Some (JInt score)
      ∧ 1 ≤ score ≤ 10.
Proof.
  cbv zeta.
  assert (Hfile : uploaded_file_obj (session_state uploaded_app) = Some bottles)
    by reflexivity.
  assert (Himage : Image_open bottles = Ok (Raster bottles)) by reflexivity.
  assert (Hclient : gemini_client sample_config = Some sample_gemini_client)
    by reflexivity.
  assert (Hmiss : cache_data uploaded_app
                    !! (gemini_api_key sample_config,
                        unique_id (session_state uploaded_app)) = None)
    by reflexivity.
  assert (Hshape : conforms DESIGN_SCHEMA (JObj lamp_dict) = true)
    by reflexivity.
  destruct (analysis_stores_what_the_service_returned sample_config
              sample_gemini_client bottles (Raster bottles) uploaded_app
              Hfile Himage Hclient Hmiss) as (_ & _ & Hvalid).
  split_and!; [exact Hfile | exact Himage | exact Hmiss | exact Hshape |].
  apply (Hvalid {| text := Some lamp_text;
                   candidates := [{| finish_reason := Some STOP |}] |}
                (JObj lamp_dict)); [reflexivity | | exact Hshape].
  reflexivity.
Defined.



End runs.

(** ** Further properties of the memo table and the callbacks *)

Section table_properties.
Context `{Libraries}.

(** The table after a call of the analysis function: unchanged on a hit,
    one entry more on a miss. *)
Lemma run_gemini_analysis_table cfg image_obj key id app :
  ∃ v events,
    (run_gemini_analysis cfg image_obj key id app).1 = Ok v
    ∧ session_state (run_gemini_analysis cfg image_obj key id app).2 = session_state app
    ∧ log (run_gemini_analysis cfg image_obj key id app).2 = log app ++ events
    ∧ match cache_data app !! (key, id) with
      | Some entry =>
          value entry = v
          ∧ cache_data (run_gemini_analysis cfg image_obj key id app).2 = cache_data app
          ∧ remote_calls events = []
      | None =>
          ∃ entry, value entry = v
                   ∧ cache_data (run_gemini_analysis cfg image_obj key id app).2
                     = <[(key, id) := entry]> (cache_data app)
      end.
Proof.
  destruct (cache_data app !! (key, id)) as [entry|] eqn:Hlook.
  - exists (value entry), (StError <$> replayed entry).
    unfold run_gemini_analysis. rewrite (st_cache_data_hit _ _ _ _ Hlook). simpl.
    split_and!; try done. apply remote_calls_replayed.
  - destruct (run_gemini_analysis_miss cfg image_obj key id app Hlook)
      as (v & events & _ & ->).
    exists v, events. simpl. split_and!; try done.
    by exists {| value := v; replayed := errors_of events |}.
Qed.

(** The table after the analysis callback holds every entry it held before. *)
Lemma analyze_image_callback_table cfg app :
  cache_data app ⊆ cache_data (exec (analyze_image_callback cfg) app).
Proof.
  unfold exec. rewrite analyze_image_callback_eq.
  destruct (uploaded_file_obj (session_state app)) as [uploaded_file|]; [|done].
  destruct (Image_open uploaded_file) as [image_pil|e]; [|done].
  destruct (run_gemini_analysis_table cfg (Some image_pil) (gemini_api_key cfg)
              (unique_id (session_state app)) app)
    as ([blueprint vis] & events & Hv & _ & _ & Htable).
  destruct (run_gemini_analysis cfg (Some image_pil) (gemini_api_key cfg)
              (unique_id (session_state app)) app) as [r app'].
  simpl in Hv, Htable. subst r.
  assert (Hsub : cache_data app ⊆ cache_data app').
  { destruct (cache_data app !! (gemini_api_key cfg, unique_id (session_state app)))
      as [entry|] eqn:Hlook.
    - destruct Htable as (_ & -> & _). done.
    - destruct Htable as (entry & _ & ->). by apply insert_subseteq. }
  by destruct (blueprint_truthy blueprint).
Qed.

(** The rendering callback leaves the table alone. *)
Lemma generate_image_callback_table cfg app :
  cache_data (exec (generate_image_callback cfg) app) = cache_data app.
Proof.
  unfold exec. rewrite generate_image_callback_eq.
  destruct (negb (truthy (vis_prompt (session_state app)))); [done|].
  destruct (generate_image_with_hf_returns cfg (vis_prompt (session_state app)) app)
    as ([image|] & events & ->); done.
Qed.

(** X1.  No user action ever removes or changes an entry of the memo table:
    along any sequence of actions, an entry that is in the table stays in it
    with the same value and the same replayed messages. *)
Theorem cache_entries_are_never_lost app app' key id entry :
  rtc ui_step app app' →
  cache_data app !! (key, id) = Some entry →
  cache_data app' !! (key, id) = Some entry.
Proof.
  intros Hsteps. revert entry.
  induction Hsteps as [app|app app1 app' Hstep _ IH]; [done|].
  intros entry Hentry. apply IH.
  destruct Hstep as [app uploaded_file time_time _ | app _ | app cfg _ _ _
                    | app cfg _ _ _].
  - done.
  - done.
  - by apply (lookup_weaken _ _ _ _ Hentry), analyze_image_callback_table.
  - by rewrite generate_image_callback_table.
Qed.

End table_properties.

Section callback_properties.
Context `{Libraries}.

(** What the rendering callback never touches. *)
Lemma generate_image_callback_frame cfg app :
  let app' := exec (generate_image_callback cfg) app in
  uploaded_file_obj (session_state app') = uploaded_file_obj (session_state app)
  ∧ unique_id (session_state app') = unique_id (session_state app)
  ∧ blueprint_data (session_state app') = blueprint_data (session_state app)
  ∧ vis_prompt (session_state app') = vis_prompt (session_state app)
  ∧ cache_data app' = cache_data app.
Proof.
  cbv zeta. unfold exec. rewrite generate_image_callback_eq.
  destruct (negb (truthy (vis_prompt (session_state app)))); [done|].
  destruct (generate_image_with_hf_returns cfg (vis_prompt (session_state app)) app)
    as ([image|] & events & ->); done.
Qed.

(** X2.  In every state the user interface can reach, the blueprint and the
    prompt in the session are what the memo table holds for the current
    identifier under some key: nothing is displayed that the table does not
    also hold. *)
Theorem displayed_blueprint_is_cached app blueprint :
  reachable app →
  blueprint_data (session_state app) = Some blueprint →
  ∃ key entry,
    cache_data app !! (key, unique_id (session_state app)) = Some entry
    ∧ value entry = (Some blueprint, vis_prompt (session_state app)).
Proof.
  intros [cache Hsteps]. revert app Hsteps blueprint.
  apply (rtc_ind_r (λ app, ∀ blueprint,
           blueprint_data (session_state app) = Some blueprint →
           ∃ key entry,
             cache_data app !! (key, unique_id (session_state app)) = Some entry
             ∧ value entry = (Some blueprint, vis_prompt (session_state app))));
    [done|].
  intros app app' _ Hstep IH blueprint.
  destruct Hstep as [app uploaded_file time_time _ | app _ | app cfg _ Hnone _
                    | app cfg _ _ _].
  - done.
  - done.
  - unfold exec. rewrite analyze_image_callback_eq.
    destruct (uploaded_file_obj (session_state app)) as [uploaded_file|];
      [|simpl; by rewrite Hnone].
    destruct (Image_open uploaded_file) as [image_pil|e];
      [|simpl; by rewrite Hnone].
    destruct (run_gemini_analysis_returns cfg (Some image_pil) (gemini_api_key cfg)
                (unique_id (session_state app)) app)
      as ([stored vis] & entry & events & -> & Hvalue).
    destruct (blueprint_truthy stored); simpl; [|by rewrite Hnone].
    intros ->. exists (gemini_api_key cfg), entry.
    split; [apply lookup_insert_eq | done].
  - intros Hblueprint.
    destruct (generate_image_callback_frame cfg app) as (_ & Hid & Hb & Hv & Htable).
    rewrite Hb in Hblueprint.
    destruct (IH blueprint Hblueprint) as (key & entry & Hl & He).
    exists key, entry. by rewrite Hid, Hv, Htable.
Qed.

(** The analysis callback on a hit: the stored value is used and nothing is
    sent. *)
Lemma analyze_image_callback_hit cfg app uploaded_file image_pil entry :
  uploaded_file_obj (session_state app) = Some uploaded_file →
  Image_open uploaded_file = Ok image_pil →
  cache_data app !! (gemini_api_key cfg, unique_id (session_state app)) = Some entry →
  analyze_image_callback cfg app =
    (Ok (),
     {| session_state :=
          if blueprint_truthy (value entry).1
          then {| uploaded_file_obj := uploaded_file_obj (session_state app);
                  unique_id := unique_id (session_state app);
                  blueprint_data := (value entry).1;
                  vis_prompt := (value entry).2;
                  generated_image_obj := None;
                  last_generation_status := None |}
          else session_state app;
        cache_data := cache_data app;
        log := log app ++ (StError <$> replayed entry) |}).
Proof.
  intros Hfile Himage Hhit. rewrite analyze_image_callback_eq, Hfile, Himage.
  unfold run_gemini_analysis. rewrite (st_cache_data_hit _ _ _ _ Hhit).
  destruct (value entry) as [stored vis]. simpl.
  destruct (blueprint_truthy stored); simpl; by rewrite ?Hfile.
Qed.

(** X3.  Running the analysis callback a second time, with the same key,
    changes nothing: the session and the table are those the first run left,
    and no remote request is issued. *)
Theorem analyze_image_callback_idempotent cfg cfg' app :
  gemini_api_key cfg' = gemini_api_key cfg →
  let app1 := exec (analyze_image_callback cfg) app in
  let app2 := exec (analyze_image_callback cfg') app1 in
  session_state app2 = session_state app1
  ∧ cache_data app2 = cache_data app1
  ∧ remote_calls (log app2) = remote_calls (log app1).
Proof.
  intros Hkey. cbv zeta. unfold exec.
  rewrite (analyze_image_callback_eq cfg app).
  destruct (uploaded_file_obj (session_state app)) as [uploaded_file|] eqn:Hfile.
  - destruct (Image_open uploaded_file) as [image_pil|e] eqn:Himage.
    + destruct (run_gemini_analysis_returns cfg (Some image_pil) (gemini_api_key cfg)
                  (unique_id (session_state app)) app)
        as ([stored vis] & entry & events & -> & Hvalue).
      destruct (blueprint_truthy stored) eqn:Htrue.
      * match goal with
        | |- context [analyze_image_callback cfg' ?a] =>
            rewrite (analyze_image_callback_hit cfg' a uploaded_file image_pil entry)
        end; [| done | done | simpl; rewrite Hkey; apply lookup_insert_eq].
        rewrite Hvalue. simpl. rewrite Htrue. simpl.
        split_and!; [done | done |].
        by rewrite remote_calls_app, remote_calls_replayed, app_nil_r.
      * match goal with
        | |- context [analyze_image_callback cfg' ?a] =>
            rewrite (analyze_image_callback_hit cfg' a uploaded_file image_pil entry)
        end; [| done | done | simpl; rewrite Hkey; apply lookup_insert_eq].
        rewrite Hvalue. simpl. rewrite Htrue. simpl.
        split_and!; [done | done |].
        by rewrite remote_calls_app, remote_calls_replayed, app_nil_r.
    + unfold_M. simpl. rewrite analyze_image_callback_eq. simpl.
      rewrite Hfile, Himage. unfold_M. simpl.
      split_and!; [done | done |]. by rewrite remote_calls_app, app_nil_r.
  - unfold_M. simpl. rewrite analyze_image_callback_eq. simpl.
    rewrite Hfile. unfold_M. simpl.
    split_and!; [done | done |]. by rewrite remote_calls_app, app_nil_r.
Qed.

(** With a decodable file, the analysis callback logs what the analysis
    function logs. *)
Lemma analyze_image_callback_log cfg app uploaded_file image_pil :
  uploaded_file_obj (session_state app) = Some uploaded_file →
  Image_open uploaded_file = Ok image_pil →
  log (exec (analyze_image_callback cfg) app)
  = log (exec (run_gemini_analysis cfg (Some image_pil) (gemini_api_key cfg)
                 (unique_id (session_state app))) app).
Proof.
  intros Hfile Himage. unfold exec.
  rewrite analyze_image_callback_eq, Hfile, Himage.
  destruct (run_gemini_analysis cfg (Some image_pil) (gemini_api_key cfg)
              (unique_id (session_state app)) app) as [[[stored vis]|e] app'];
    [|done].
  by destruct (blueprint_truthy stored).
Qed.

(** X4.  A failed analysis is retried once the key changes: when the first
    analysis of an item failed under one key, an analysis of the same item
    under another key, for which the table has no entry, sends the image to
    the service again. *)
Theorem failed_analysis_retried_under_new_key
    cfg cfg' client client' uploaded_file image e app :
  uploaded_file_obj (session_state app) = Some uploaded_file →
  Image_open uploaded_file = Ok image →
  gemini_client cfg = Some client →
  gemini_client cfg' = Some client' →
  gemini_api_key cfg' ≠ gemini_api_key cfg →
  cache_data app !! (gemini_api_key cfg, unique_id (session_state app)) = None →
  cache_data app !! (gemini_api_key cfg', unique_id (session_state app)) = None →
  analysis_attempt client image = Raise e →
  let app1 := exec (analyze_image_callback cfg) app in
  let app2 := exec (analyze_image_callback cfg') app1 in
  remote_calls (log app2)
  = remote_calls (log app1) ++ [RemoteGenerateContent (analysis_request image)].
Proof.
  intros Hfile Himage Hclient Hclient' Hkey Hmiss Hmiss' Hfails. cbv zeta.
  set (app1 := {| session_state := session_state app;
                  cache_data := <[(gemini_api_key cfg, unique_id (session_state app))
                                  := {| value := (None, JNull);
                                        replayed := [GeminiAPIError e] |}]>
                                  (cache_data app);
                  log := log app ++ [RemoteGenerateContent (analysis_request image);
                                     StError (GeminiAPIError e)] |}).
  assert (Hfirst : exec (analyze_image_callback cfg) app = app1).
  { unfold exec. rewrite analyze_image_callback_eq, Hfile, Himage.
    by rewrite (run_gemini_analysis_failure cfg client image _ _ e app
                  Hmiss Hclient Hfails). }
  rewrite Hfirst.
  assert (Hmiss1 : cache_data app1
                     !! (gemini_api_key cfg', unique_id (session_state app1)) = None).
  { simpl. rewrite lookup_insert_ne; [done|]. intros [= Heq]. by apply Hkey. }
  rewrite (analyze_image_callback_log cfg' app1 uploaded_file image Hfile Himage).
  exact (analysis_miss_calls_service cfg' client' image _ _ app1 Hmiss1 Hclient').
Qed.

(** X5.  The early return for a missing client is memoized like any result:
    without a client the analysis function returns (None, None) without a
    request and without a message, and stores it; a later call with the same
    key and identifier returns it again even when a client is there. *)
Theorem missing_client_is_memoized cfg cfg' image_obj image_obj' key id app :
  cache_data app !! (key, id) = None →
  gemini_client cfg = None →
  let first := run_gemini_analysis cfg image_obj key id app in
  let second := run_gemini_analysis cfg' image_obj' key id first.2 in
  first.1 = Ok (None, JNull)
  ∧ log first.2 = log app
  ∧ cache_data first.2 !! (key, id) = Some {| value := (None, JNull); replayed := [] |}
  ∧ second.1 = Ok (None, JNull)
  ∧ log second.2 = log app.
Proof.
  intros Hmiss Hnone. cbv zeta.
  assert (Hfirst : run_gemini_analysis cfg image_obj key id app
                   = (Ok (None, JNull),
                      {| session_state := session_state app;
                         cache_data := <[(key, id) := {| value := (None, JNull);
                                                        replayed := [] |}]>
                                         (cache_data app);
                         log := log app ++ [] |})).
  { unfold run_gemini_analysis, st_cache_data.
    by rewrite Hmiss, run_gemini_analysis_body_eq, Hnone. }
  rewrite Hfirst. simpl. unfold run_gemini_analysis.
  rewrite (st_cache_data_hit (key, id) _ _ _ (lookup_insert_eq _ _ _)). simpl.
  split_and!; try done; try apply lookup_insert_eq; by rewrite !app_nil_r.
Qed.

(** X6.  Without a stored file, or with a stored file PIL cannot decode, the
    analysis callback displays one error and does nothing else: the session
    and the table are unchanged and no request is issued. *)
Theorem analysis_needs_a_decodable_file cfg app :
  (uploaded_file_obj (session_state app) = None
   ∨ ∃ uploaded_file e,
       uploaded_file_obj (session_state app) = Some uploaded_file
       ∧ Image_open uploaded_file = Raise e) →
  ∃ message,
    analyze_image_callback cfg app =
      (Ok (), {| session_state := session_state app;
                 cache_data := cache_data app;
                 log := log app ++ [StError message] |})
    ∧ (message = UploadAnImageFirst ∨ ∃ e, message = ErrorProcessingImage e).
Proof.
  rewrite analyze_image_callback_eq.
  intros [-> | (uploaded_file & e & -> & ->)].
  - exists UploadAnImageFirst. split; [done | by left].
  - exists (ErrorProcessingImage e). split; [done | right; by exists e].
Qed.

End callback_properties.

Section rendering_properties.
Context `{Libraries}.

(** What the rendering service's answer decodes to: an image object is taken
    as it is, bytes go through PIL. *)
Lemma generate_image_with_hf_eq cfg client prompt_text app :
  hf_client cfg = Some client →
  generate_image_with_hf cfg prompt_text app =
    match text_to_image client (render_request prompt_text) with
    | Ok (OutputImage image) =>
        (Ok (Some image),
         {| session_state := session_state app; cache_data := cache_data app;
            log := log app ++ [RemoteTextToImage (render_request prompt_text)] |})
    | Ok (OutputBytes data) =>
        match Image_open data with
        | Ok image =>
            (Ok (Some image),
             {| session_state := session_state app; cache_data := cache_data app;
                log := log app ++ [RemoteTextToImage (render_request prompt_text)] |})
        | Raise e =>
            (Ok None,
             {| session_state := session_state app; cache_data := cache_data app;
                log := log app ++ [RemoteTextToImage (render_request prompt_text);
                                   StError (ImageGenerationError e)] |})
        end
    | Raise e =>
        (Ok None,
         {| session_state := session_state app; cache_data := cache_data app;
            log := log app ++ [RemoteTextToImage (render_request prompt_text);
                               StError (ImageGenerationError e)] |})
    end.
Proof.
  intros Hclient. unfold generate_image_with_hf. rewrite Hclient. unfold_M. simpl.
  destruct (text_to_image client (render_request prompt_text)) as [[image|data]|e];
    simpl; [done | | by rewrite <- app_assoc].
  destruct (Image_open data) as [image|e]; simpl; [done | by rewrite <- app_assoc].
Qed.

(** X7.  With a prompt that is true, the rendering callback ends with the
    status [success] exactly when a client exists and its answer is an image
    object or bytes PIL can decode; it then stores that image.  In every
    other case the status is [failed]. *)
Theorem render_succeeds_iff_image_decodes cfg app :
  truthy (vis_prompt (session_state app)) = true →
  let app' := exec (generate_image_callback cfg) app in
  let answers image :=
    ∃ client, hf_client cfg = Some client
      ∧ (text_to_image client (render_request (vis_prompt (session_state app)))
           = Ok (OutputImage image)
         ∨ ∃ data, text_to_image client
                     (render_request (vis_prompt (session_state app)))
                   = Ok (OutputBytes data)
                   ∧ Image_open data = Ok image) in
  (∀ image, answers image →
     generated_image_obj (session_state app') = Some image
     ∧ last_generation_status (session_state app') = Some "success")
  ∧ ((∀ image, ¬ answers image) →
     generated_image_obj (session_state app') = generated_image_obj (session_state app)
     ∧ last_generation_status (session_state app') = Some "failed").
Proof.
  intros Hprompt. cbv zeta. unfold exec.
  rewrite generate_image_callback_eq, Hprompt. simpl. split.
  - intros image (client & Hclient & Hanswer).
    rewrite (generate_image_with_hf_eq cfg client _ app Hclient).
    destruct Hanswer as [-> | (data & -> & ->)]; done.
  - intros Hnone.
    destruct (hf_client cfg) as [client|] eqn:Hclient.
    + rewrite (generate_image_with_hf_eq cfg client _ app Hclient).
      destruct (text_to_image client
                  (render_request (vis_prompt (session_state app))))
        as [[image|data]|e] eqn:Hanswer.
      * exfalso. apply (Hnone image). exists client. split; [done | by left].
      * destruct (Image_open data) as [image|e] eqn:Hdecode; [|done].
        exfalso. apply (Hnone image). exists client. split; [done|].
        right. by exists data.
      * done.
    + unfold generate_image_with_hf. by rewrite Hclient.
Qed.

(** X8.  Rendering is not memoized: with a client and a prompt that is true,
    every run of the rendering callback sends one request, made of the style
    prefix, the stored prompt and the fixed parameters, so two runs send
    two; the memo table is not touched. *)
Theorem every_render_calls_the_service cfg cfg' client client' app :
  hf_client cfg = Some client →
  hf_client cfg' = Some client' →
  truthy (vis_prompt (session_state app)) = true →
  let request := RemoteTextToImage (render_request (vis_prompt (session_state app))) in
  let app1 := exec (generate_image_callback cfg) app in
  let app2 := exec (generate_image_callback cfg') app1 in
  remote_calls (log app1) = remote_calls (log app) ++ [request]
  ∧ remote_calls (log app2) = remote_calls (log app) ++ [request; request]
  ∧ cache_data app2 = cache_data app.
Proof.
  intros Hclient Hclient' Hprompt. cbv zeta.
  assert (Hone : ∀ c cl a,
            hf_client c = Some cl →
            truthy (vis_prompt (session_state a)) = true →
            remote_calls (log (exec (generate_image_callback c) a))
            = remote_calls (log a)
              ++ [RemoteTextToImage (render_request (vis_prompt (session_state a)))]).
  { intros c cl a Hc Hp. unfold exec.
    rewrite generate_image_callback_eq, Hp. simpl.
    rewrite (generate_image_with_hf_eq c cl _ a Hc).
    destruct (text_to_image cl (render_request (vis_prompt (session_state a))))
      as [[image|data]|e]; simpl; try by rewrite remote_calls_app.
    destruct (Image_open data) as [image|e]; simpl; by rewrite remote_calls_app. }
  destruct (generate_image_callback_frame cfg app) as (_ & _ & _ & Hvis & Htable).
  destruct (generate_image_callback_frame cfg' (exec (generate_image_callback cfg) app))
    as (_ & _ & _ & _ & Htable').
  split_and!.
  - by apply (Hone cfg client).
  - rewrite (Hone cfg' client'); [| done | by rewrite Hvis].
    rewrite (Hone cfg client), Hvis by done. by rewrite <- app_assoc.
  - by rewrite Htable', Htable.
Qed.

End rendering_properties.

(** ** Identifiers and the sessions the interface can reach *)

(** Membership in a list that is written out. *)
Ltac in_status_list := rewrite !elem_of_cons; auto 10.

Section identifier_properties.
Context `{Libraries}.

(** On a reading of the clock that is not negative, [int] is the floor. *)
Lemma int_of_float_floor (x : Q) : (0 <= x)%Q → int_of_float x = Qfloor x.
Proof.
  destruct x as [n d]. unfold Qle, int_of_float, Qfloor. simpl. intros Hn.
  apply Z.quot_div_nonneg; lia.
Qed.

(** A reading one second after a reading that is not negative is not
    negative, and its floor is larger. *)
Lemma Qle_second_later (t1 t2 : Q) : (0 <= t1)%Q → (t1 + 1 <= t2)%Q → (0 <= t2)%Q.
Proof.
  intros Hpos Hlater. apply Qle_trans with (t1 + 1)%Q; [|done].
  apply Qle_trans with (t1 + 0)%Q; [by rewrite Qplus_0_r|].
  by apply Qplus_le_r.
Qed.

Lemma Qfloor_second_later (t1 t2 : Q) : (t1 + 1 <= t2)%Q → Qfloor t1 < Qfloor t2.
Proof.
  intros Hlater.
  assert (Hstep : (inject_Z (Qfloor t1 + 1) <= t2)%Q).
  { rewrite inject_Z_plus. apply Qle_trans with (t1 + 1)%Q; [|done].
    apply Qplus_le_l, Qfloor_le. }
  apply Qfloor_resp_le in Hstep. rewrite Qfloor_Z in Hstep. lia.
Qed.

(** X9.  Two uploads whose clock readings are at least one second apart get
    different identifiers, the later one the larger (readings since the
    epoch, hence not negative). *)
Theorem identifiers_a_second_apart_differ (file_a file_b : UploadedFile)
    (t1 t2 : Q) app_a app_b :
  (0 <= t1)%Q → (t1 + 1 <= t2)%Q →
  ∃ id_a id_b,
    unique_id (session_state (exec (upload_handler file_a t1) app_a)) = Some id_a
    ∧ unique_id (session_state (exec (upload_handler file_b t2) app_b)) = Some id_b
    ∧ id_a < id_b.
Proof.
  intros Hpos Hlater. exists (int_of_float t1), (int_of_float t2).
  split_and!; [done..|].
  rewrite !int_of_float_floor by eauto using Qle_second_later.
  by apply Qfloor_second_later.
Qed.

(** The entries of the table after the analysis callback: those it had, and
    at most one more, under the key of the configuration and the identifier
    of the session. *)
Lemma analyze_image_callback_new_entry cfg app key id entry :
  cache_data (exec (analyze_image_callback cfg) app) !! (key, id) = Some entry →
  cache_data app !! (key, id) = Some entry
  ∨ (key, id) = (gemini_api_key cfg, unique_id (session_state app)).
Proof.
  unfold exec. rewrite analyze_image_callback_eq.
  destruct (uploaded_file_obj (session_state app)) as [uploaded_file|]; [|by left].
  destruct (Image_open uploaded_file) as [image_pil|e]; [|by left].
  destruct (run_gemini_analysis_returns cfg (Some image_pil) (gemini_api_key cfg)
              (unique_id (session_state app)) app)
    as ([stored vis] & new & events & -> & _).
  assert (Hcases : <[(gemini_api_key cfg, unique_id (session_state app)) := new]>
                     (cache_data app) !! (key, id) = Some entry →
                   cache_data app !! (key, id) = Some entry
                   ∨ (key, id) = (gemini_api_key cfg, unique_id (session_state app))).
  { intros Hentry.
    destruct (decide ((gemini_api_key cfg, unique_id (session_state app)) = (key, id)))
      as [Heq | Hne]; [by right|].
    left. by rewrite lookup_insert_ne in Hentry. }
  by destruct (blueprint_truthy stored).
Qed.

(** X10.  A later upload is analysed anew.  From a blank application, an
    item is uploaded and analysed, the session is reset, and a second item is
    uploaded at least one second after the first: its identifier is another
    one, and its analysis sends the second picture to the service. *)
Theorem upload_a_second_later_is_analysed_anew
    cfg cfg' client' file_a file_b image_b (t1 t2 : Q) :
  (0 <= t1)%Q →
  (t1 + 1 <= t2)%Q →
  Image_open file_b = Ok image_b →
  gemini_client cfg' = Some client' →
  let app1 := exec (upload_handler file_a t1) initial_app in
  let app2 := exec (analyze_image_callback cfg) app1 in
  let app3 := exec reset_app app2 in
  let app4 := exec (upload_handler file_b t2) app3 in
  let app5 := exec (analyze_image_callback cfg') app4 in
  unique_id (session_state app4) ≠ unique_id (session_state app1)
  ∧ remote_calls (log app5)
    = remote_calls (log app2) ++ [RemoteGenerateContent (analysis_request image_b)].
Proof.
  intros Hpos Hlater Himage Hclient. cbv zeta.
  assert (Hids : int_of_float t1 < int_of_float t2).
  { rewrite !int_of_float_floor by eauto using Qle_second_later.
    by apply Qfloor_second_later. }
  split; [simpl; intros [= Heq]; lia|].
  set (app1 := exec (upload_handler file_a t1) initial_app).
  set (app2 := exec (analyze_image_callback cfg) app1).
  set (app4 := exec (upload_handler file_b t2) (exec reset_app app2)).
  assert (Hmiss : cache_data app4
                    !! (gemini_api_key cfg', unique_id (session_state app4)) = None).
  { change (cache_data app4) with (cache_data app2).
    change (unique_id (session_state app4)) with (Some (int_of_float t2)).
    destruct (cache_data app2 !! (gemini_api_key cfg', Some (int_of_float t2)))
      as [entry|] eqn:Hentry; [|done].
    apply analyze_image_callback_new_entry in Hentry as [Hold | [= _ Heq]].
    - done.
    - lia. }
  rewrite (analyze_image_callback_log cfg' app4 file_b image_b eq_refl Himage).
  exact (analysis_miss_calls_service cfg' client' image_b _ _ app4 Hmiss Hclient).
Qed.

(** X11.  The shape of every session the user interface can reach: the
    identifier is there exactly when a file is; a blueprint needs a file and
    is not empty; a concept image or a status needs a blueprint; the status
    [success] needs a concept image; and the status is one of the four
    values the code assigns. *)
Theorem reachable_session_shape app :
  reachable app →
  let s := session_state app in
  (uploaded_file_obj s = None ↔ unique_id s = None)
  ∧ (blueprint_data s ≠ None → uploaded_file_obj s ≠ None)
  ∧ (∀ blueprint, blueprint_data s = Some blueprint → blueprint ≠ ∅)
  ∧ (generated_image_obj s ≠ None → blueprint_data s ≠ None)
  ∧ (last_generation_status s ≠ None → blueprint_data s ≠ None)
  ∧ (last_generation_status s = Some "success" → generated_image_obj s ≠ None)
  ∧ last_generation_status s
    ∈ [None; Some "no_prompt"; Some "success"; Some "failed"].
Proof.
  intros [cache Hsteps]. cbv zeta. revert app Hsteps.
  apply (rtc_ind_r (λ app,
    (uploaded_file_obj (session_state app) = None
     ↔ unique_id (session_state app) = None)
    ∧ (blueprint_data (session_state app) ≠ None
       → uploaded_file_obj (session_state app) ≠ None)
    ∧ (∀ blueprint, blueprint_data (session_state app) = Some blueprint
                    → blueprint ≠ ∅)
    ∧ (generated_image_obj (session_state app) ≠ None
       → blueprint_data (session_state app) ≠ None)
    ∧ (last_generation_status (session_state app) ≠ None
       → blueprint_data (session_state app) ≠ None)
    ∧ (last_generation_status (session_state app) = Some "success"
       → generated_image_obj (session_state app) ≠ None)
    ∧ last_generation_status (session_state app)
      ∈ [None; Some "no_prompt"; Some "success"; Some "failed"])).
  { simpl. split_and!; try done. in_status_list. }
  intros app app' _ Hstep (Hid & Hfile & Hfull & Himage & Hstatus & Hsuccess & Hdomain).
  destruct Hstep as [app uploaded_file time_time Hnone | app _
                    | app cfg Hsome Hblank _ | app cfg Hsome Hblueprint _].
  - simpl. split_and!; try done.
    + intros Hs. apply Hstatus in Hs. destruct (Hfile Hs). done.
    + intros Hs. exfalso.
      assert (Hne : last_generation_status (session_state app) ≠ None)
        by (by rewrite Hs).
      apply Hstatus in Hne. by destruct (Hfile Hne).
  - simpl. split_and!; try done. in_status_list.
  - assert (Hnostatus : last_generation_status (session_state app) = None).
    { destruct (last_generation_status (session_state app)) eqn:Hs; [|done].
      exfalso. by apply Hstatus. }
    assert (Hnoimage : generated_image_obj (session_state app) = None).
    { destruct (generated_image_obj (session_state app)) eqn:Hi; [|done].
      exfalso. by apply Himage. }
    unfold exec.
    destruct (analyze_image_callback_cases cfg app)
      as (cache' & events & [-> | (blueprint & vis & Htrue & ->)]); simpl.
    + split_and!; done.
    + split_and!; try done.
      * intros stored [= <-] ->. simpl in Htrue. by rewrite bool_decide_eq_true_2 in Htrue.
      * in_status_list.
  - destruct (generate_image_callback_frame cfg app) as (Hf & Hi & Hb & _ & _).
    unfold exec in *. rewrite generate_image_callback_eq in *.
    destruct (negb (truthy (vis_prompt (session_state app)))).
    + simpl in *. split_and!; try done. in_status_list.
    + destruct (generate_image_with_hf_returns cfg
                  (vis_prompt (session_state app)) app)
        as ([image|] & events & Hgen); rewrite Hgen in *; simpl in *.
      * split_and!; try done. in_status_list.
      * split_and!; try done. in_status_list.
Qed.

End identifier_properties.

(** ** The schema and the stand-alone script *)

Section schema_properties.
Context `{Libraries}.

(** The shape of one entry of [material_breakdown]. *)
#[local] Abbreviation material_shape :=
  (λ x : json, ∃ d name quantity,
     x = JObj d
     ∧ d !! "material_name" = Some (JStr name)
     ∧ d !! "estimated_quantity" = Some (JStr quantity)).

Lemma conforms_material x :
  conforms (SObject [ ("material_name", SString None);
                      ("estimated_quantity", SString None) ]
                    ["material_name"; "estimated_quantity"]) x = true
  ↔ material_shape x.
Proof.
  split.
  - destruct x as [| | | | | |d]; try discriminate. cbn [conforms forallb fst snd].
    intros Hshape. apply andb_prop in Hshape as [Hrequired Hproperties].
    repeat rewrite andb_true_iff in Hrequired.
    destruct Hrequired as (R1 & R2 & _).
    repeat rewrite andb_true_iff in Hproperties.
    destruct Hproperties as (P1 & P2 & _).
    apply bool_decide_eq_true in R1 as [x1 H1], R2 as [x2 H2].
    rewrite H1 in P1. rewrite H2 in P2.
    destruct x1 as [| | | |name| |]; try discriminate P1.
    destruct x2 as [| | | |quantity| |]; try discriminate P2.
    by exists d, name, quantity.
  - intros (d & name & quantity & -> & H1 & H2).
    cbn [conforms forallb fst snd]. by rewrite H1, H2.
Qed.

Lemma forallb_conforms_material l :
  forallb (conforms (SObject [ ("material_name", SString None);
                               ("estimated_quantity", SString None) ]
                             ["material_name"; "estimated_quantity"])) l = true
  ↔ Forall material_shape l.
Proof.
  induction l as [|x l IH]; [done|].
  cbn [forallb]. rewrite andb_true_iff, Forall_cons, IH, conforms_material. done.
Qed.

(** What a value of the shape of the five-field schema has. *)
Lemma conforms_design_schema_fields v :
  conforms design_agent.DESIGN_SCHEMA v = true →
  ∃ m title category materials steps score,
    v = JObj m
    ∧ m !! "design_title" = Some (JStr title)
    ∧ m !! "design_type" = Some (JStr category)
    ∧ category ∈ ["Art Piece"; "Small Furniture"; "Accessory"; "Tool"]
    ∧ m !! "material_breakdown" = Some (JArr materials)
    ∧ Forall material_shape materials
    ∧ m !! "assembly_steps_summary" = Some (JStr steps)
    ∧ m !! "upcycle_score" = Some (JInt score)
    ∧ 1 ≤ score ≤ 10.
Proof.
  destruct v as [| | | | | |m]; try discriminate.
  unfold design_agent.DESIGN_SCHEMA. cbn [conforms forallb fst snd].
  intros Hshape. apply andb_prop in Hshape as [Hrequired Hproperties].
  repeat rewrite andb_true_iff in Hrequired.
  destruct Hrequired as (R1 & R2 & R3 & R4 & R5 & _).
  repeat rewrite andb_true_iff in Hproperties.
  destruct Hproperties as (P1 & P2 & P3 & P4 & P5 & _).
  apply bool_decide_eq_true in R1 as [x1 H1], R2 as [x2 H2], R3 as [x3 H3],
    R4 as [x4 H4], R5 as [x5 H5].
  rewrite H1 in P1. rewrite H2 in P2. rewrite H3 in P3. rewrite H4 in P4.
  rewrite H5 in P5.
  destruct x1 as [| | | |title| |]; try discriminate P1.
  destruct x2 as [| | | |category| |]; try discriminate P2.
  destruct x3 as [| | | | |materials|]; try discriminate P3.
  destruct x4 as [| | | |steps| |]; try discriminate P4.
  destruct x5 as [| |score| | | |]; try discriminate P5.
  exists m, title, category, materials, steps, score.
  apply bool_decide_eq_true in P2. apply forallb_conforms_material in P3.
  apply andb_prop in P5 as [Hlo Hhi]. simpl in Hlo, Hhi.
  split_and!; try done; lia.
Qed.

(** X12.  What the five-field schema of the blueprint asks for, read off the
    schema by the checker: a value has its shape exactly when it is an object
    with a string title, a category among the four, a list of materials each
    with a string name and a string quantity, a string summary, and an
    integer score from 1 to 10. *)
Theorem conforms_design_schema_iff v :
  conforms design_agent.DESIGN_SCHEMA v = true
  ↔ ∃ m title category materials steps score,
      v = JObj m
      ∧ m !! "design_title" = Some (JStr title)
      ∧ m !! "design_type" = Some (JStr category)
      ∧ category ∈ ["Art Piece"; "Small Furniture"; "Accessory"; "Tool"]
      ∧ m !! "material_breakdown" = Some (JArr materials)
      ∧ Forall material_shape materials
      ∧ m !! "assembly_steps_summary" = Some (JStr steps)
      ∧ m !! "upcycle_score" = Some (JInt score)
      ∧ 1 ≤ score ≤ 10.
Proof.
  split.
  - apply conforms_design_schema_fields.
  - intros (m & title & category & materials & steps & score & -> & H1 & H2 & Hin
            & H3 & Hall & H4 & H5 & Hlo & Hhi).
    unfold design_agent.DESIGN_SCHEMA. cbn [conforms forallb fst snd].
    rewrite H1, H2, H3, H4, H5. cbn [conforms in_enum above below].
    apply forallb_conforms_material in Hall.
    change (forallb _ materials)
      with (forallb (conforms (SObject [ ("material_name", SString None);
                                         ("estimated_quantity", SString None) ]
                                       ["material_name"; "estimated_quantity"]))
              materials).
    rewrite Hall, (bool_decide_eq_true_2 _ Hin).
    replace (1 <=? score) with true by lia. replace (score <=? 10) with true by lia.
    done.
Qed.

(** X13.  The schema of the application is that of the stand-alone script
    with one more required field: a value has its shape exactly when it has
    the shape of the five-field schema and is an object with a string under
    [visualization_prompt]. *)
Theorem app_schema_adds_the_prompt v :
  conforms DESIGN_SCHEMA v = true
  ↔ conforms design_agent.DESIGN_SCHEMA v = true
    ∧ ∃ m p, v = JObj m ∧ m !! "visualization_prompt" = Some (JStr p).
Proof.
  split.
  - destruct v as [| | | | | |m]; try discriminate.
    unfold DESIGN_SCHEMA, design_agent.DESIGN_SCHEMA.
    cbn [conforms forallb fst snd].
    intros Hshape. apply andb_prop in Hshape as [Hrequired Hproperties].
    repeat rewrite andb_true_iff in Hrequired.
    destruct Hrequired as (R1 & R2 & R3 & R4 & R5 & R6 & _).
    repeat rewrite andb_true_iff in Hproperties.
    destruct Hproperties as (P1 & P2 & P3 & P4 & P5 & P6 & _).
    split; [by rewrite R1, R2, R3, R4, R5, P1, P2, P3, P4, P5|].
    apply bool_decide_eq_true in R6 as [x Hx]. rewrite Hx in P6.
    destruct x as [| | | |p| |]; try discriminate P6. by exists m, p.
  - intros [Hfive (m & p & -> & Hp)]. revert Hfive.
    unfold DESIGN_SCHEMA, design_agent.DESIGN_SCHEMA.
    cbn [conforms forallb fst snd].
    intros Hshape. apply andb_prop in Hshape as [Hrequired Hproperties].
    repeat rewrite andb_true_iff in Hrequired.
    destruct Hrequired as (R1 & R2 & R3 & R4 & R5 & _).
    repeat rewrite andb_true_iff in Hproperties.
    destruct Hproperties as (P1 & P2 & P3 & P4 & P5 & _).
    by rewrite R1, R2, R3, R4, R5, P1, P2, P3, P4, P5, Hp.
Qed.

End schema_properties.

Section script_properties.
Context `{Libraries}.

(** X15.  When the answer of the service has a text that decodes to a value
    of the shape of the schema, the stand-alone script returns normally and
    prints the blueprint followed by its title, its score, which lies from 1
    to 10, and its category, one of the four. *)
Theorem design_agent_prints_conforming_blueprint
    image_path client image response v :
  exc_bind (open_path image_path) Image_open = Ok image →
  generate_content client (design_agent.request image) = Ok response →
  text_truthy (text response) = true →
  json_loads_text (text response) = Ok v →
  conforms design_agent.DESIGN_SCHEMA v = true →
  ∃ title category score,
    design_agent.analyze_waste_and_design image_path client =
      ([ design_agent.PrintSendingRequest;
         design_agent.PrintSuccessHeader;
         design_agent.PrintBlueprint v;
         design_agent.PrintProjectMetrics;
         design_agent.PrintDesignTitle (JStr title);
         design_agent.PrintUpcycleScore (JInt score);
         design_agent.PrintMaterialType (JStr category) ], Ok ())
    ∧ 1 ≤ score ≤ 10
    ∧ category ∈ ["Art Piece"; "Small Furniture"; "Accessory"; "Tool"].
Proof.
  intros Hopen Hresponse Htext Hloads Hshape.
  apply conforms_design_schema_fields in Hshape
    as (m & title & category & materials & steps & score & -> & H1 & H2 & Hin
        & _ & _ & _ & H5 & Hrange).
  exists title, category, score. split; [|done].
  unfold design_agent.analyze_waste_and_design.
  rewrite Hopen, Hresponse, Htext, Hloads. cbn [negb].
  unfold design_agent.report_blueprint, subscript. by rewrite H1, H5, H2.
Qed.

(** X16.  When the stand-alone script returns normally.  It does so exactly
    when the image cannot be opened, or the service answers and the text of
    the answer is empty, is not JSON, or decodes to an object that has the
    three keys the script prints.  In every other case (the call raises, the
    decoded value is not an object or lacks one of the keys) the exception
    leaves the function. *)
Theorem design_agent_returns_iff image_path client :
  (design_agent.analyze_waste_and_design image_path client).2 = Ok ()
  ↔ (∃ e, exc_bind (open_path image_path) Image_open = Raise e)
    ∨ ∃ image response,
        exc_bind (open_path image_path) Image_open = Ok image
        ∧ generate_content client (design_agent.request image) = Ok response
        ∧ (text_truthy (text response) = false
           ∨ json_loads_text (text response) = Raise JSONDecodeError
           ∨ ∃ m, json_loads_text (text response) = Ok (JObj m)
                  ∧ is_Some (m !! "design_title")
                  ∧ is_Some (m !! "upcycle_score")
                  ∧ is_Some (m !! "design_type")).
Proof.
  unfold design_agent.analyze_waste_and_design.
  destruct (exc_bind (open_path image_path) Image_open) as [image|e] eqn:Hopen.
  - destruct (generate_content client (design_agent.request image))
      as [response|e] eqn:Hresponse.
    + destruct (text_truthy (text response)) eqn:Htext; cbn [negb].
      * destruct (json_loads_text (text response)) as [v|e] eqn:Hloads.
        -- unfold design_agent.report_blueprint.
           destruct v as [| | | | | |m]; cbn;
             try (split; [discriminate|];
                  intros [[e He] | (i & r & Hi & Hr & [Hf | [Hj | (m & Hm & _)]])];
                  congruence).
           destruct (m !! "design_title") as [x1|] eqn:H1;
             [destruct (m !! "upcycle_score") as [x2|] eqn:H2;
              [destruct (m !! "design_type") as [x3|] eqn:H3|]|]; cbn.
           ++ split; [intros _|done]. right. exists image, response.
              split_and!; try done. right. right. exists m.
              rewrite H1, H2, H3. by split_and!.
           ++ split; [discriminate|].
              intros [[e He] | (i & r & Hi & Hr & [Hf | [Hj | (m' & Hm & _ & _ & Hs)]])];
                try congruence.
              assert (m' = m) as -> by congruence. rewrite H3 in Hs. by destruct Hs.
           ++ split; [discriminate|].
              intros [[e He] | (i & r & Hi & Hr & [Hf | [Hj | (m' & Hm & _ & Hs & _)]])];
                try congruence.
              assert (m' = m) as -> by congruence. rewrite H2 in Hs. by destruct Hs.
           ++ split; [discriminate|].
              intros [[e He] | (i & r & Hi & Hr & [Hf | [Hj | (m' & Hm & Hs & _)]])];
                try congruence.
              assert (m' = m) as -> by congruence. rewrite H1 in Hs. by destruct Hs.
        -- destruct e; cbn;
             try (split; [discriminate|];
                  intros [[e' He] | (i & r & Hi & Hr & [Hf | [Hj | (m & Hm & _)]])];
                  congruence).
           split; [intros _|done]. right. exists image, response.
           split_and!; try done. right. by left.
      * split; [intros _|done]. right. exists image, response.
        split_and!; try done. by left.
    + cbn. split; [discriminate|].
      intros [[e' He] | (i & r & Hi & Hr & _)]; congruence.
  - split; [intros _; left; by exists e|]. intros _. by destruct e.
Qed.

End script_properties.

(** ** The page *)

Section page_properties.
Context `{Libraries}.
Import main_script.

(** The loop over the materials runs to its end exactly when every item is
    a dictionary with the two keys. *)
Lemma material_lines_ok_iff items :
  (material_lines items).2 = Ok ()
  ↔ Forall (λ m, ∃ d, m = JObj d
                      ∧ is_Some (d !! "material_name")
                      ∧ is_Some (d !! "estimated_quantity")) items.
Proof.
  induction items as [|m items IH]; [done|].
  rewrite Forall_cons. cbn [material_lines].
  destruct m as [| | | | | |d]; cbn [subscript];
    try (split; [discriminate | by intros [(d & Hd & _) _]]).
  destruct (d !! "material_name") as [name|] eqn:Hname.
  - destruct (d !! "estimated_quantity") as [quantity|] eqn:Hquantity.
    + destruct (material_lines items) as [lines r]. cbn in IH |- *.
      rewrite IH. split; [|by intros [_ ?]].
      intros Hrest. split; [|done]. exists d. rewrite Hname, Hquantity. by split_and!.
    + cbn. split; [discriminate|].
      intros [(d' & [= <-] & _ & Hq) _]. rewrite Hquantity in Hq. by destruct Hq.
  - cbn. split; [discriminate|].
    intros [(d' & [= <-] & Hn & _) _]. rewrite Hname in Hn. by destruct Hn.
Qed.

(** X17.  When the plan of a blueprint can be drawn.  The header and the
    left column are drawn without an exception exactly when what is stored
    under [material_breakdown] can be iterated (a missing key counts as the
    empty list) and every item of it is a dictionary with the keys
    [material_name] and [estimated_quantity]; otherwise the script run ends
    there with the exception. *)
Theorem plan_view_ok_iff (blueprint : dict) :
  (plan_view blueprint).2 = Ok ()
  ↔ ∃ items,
      iterate (get blueprint "material_breakdown" (JArr [])) = Ok items
      ∧ Forall (λ m, ∃ d, m = JObj d
                          ∧ is_Some (d !! "material_name")
                          ∧ is_Some (d !! "estimated_quantity")) items.
Proof.
  unfold plan_view.
  destruct (iterate (get blueprint "material_breakdown" (JArr []))) as [items|e].
  - pose proof (material_lines_ok_iff items) as Hloop.
    destruct (material_lines items) as [lines [[]|e]]; cbn in Hloop |- *.
    + split; [intros _; exists items; split; [done | by apply Hloop] | done].
    + split; [discriminate|]. intros (items' & [= <-] & Hall).
      by apply Hloop in Hall.
  - cbn. split; [discriminate|]. by intros (items & Hitems & _).
Qed.

(** X18.  A blueprint of the shape of the five-field schema is always drawn:
    the plan shows the title, the category, the score, one line for each
    material in the order of the list, and the summary of the steps, and no
    exception is raised. *)
Theorem plan_view_of_conforming_blueprint (blueprint : dict) :
  conforms design_agent.DESIGN_SCHEMA (JObj blueprint) = true →
  ∃ title category score materials steps lines,
    plan_view blueprint =
      ([ DesignHeader (JStr title); CategoryCaption (JStr category); PlanSubheader;
         UpcycleScoreMetric (JInt score); MaterialBreakdownHeading ]
       ++ lines ++ [AssemblyStepsHeading; StepsText (JStr steps)], Ok ())
    ∧ blueprint !! "material_breakdown" = Some (JArr materials)
    ∧ Forall2 (λ m line, ∃ d name quantity,
                 m = JObj d
                 ∧ d !! "material_name" = Some (JStr name)
                 ∧ d !! "estimated_quantity" = Some (JStr quantity)
                 ∧ line = MaterialLine (JStr name) (JStr quantity))
        materials lines.
Proof.
  intros Hshape.
  apply conforms_design_schema_fields in Hshape
    as (m & title & category & materials & steps & score & [= <-] & H1 & H2 & _
        & H3 & Hall & H4 & H5 & _).
  assert (Hlines : ∃ lines,
            material_lines materials = (lines, Ok ())
            ∧ Forall2 (λ m line, ∃ d name quantity,
                         m = JObj d
                         ∧ d !! "material_name" = Some (JStr name)
                         ∧ d !! "estimated_quantity" = Some (JStr quantity)
                         ∧ line = MaterialLine (JStr name) (JStr quantity))
                materials lines).
  { clear H3. induction Hall as [|x l (d & name & quantity & -> & Hn & Hq) _ IH].
    - by exists [].
    - destruct IH as (lines & Hrest & Hall2).
      exists (MaterialLine (JStr name) (JStr quantity) :: lines).
      cbn [material_lines subscript]. rewrite Hn, Hq, Hrest. split; [done|].
      constructor; [|done]. by exists d, name, quantity. }
  destruct Hlines as (lines & Hlines & Hall2).
  exists title, category, score, materials, steps, lines.
  split_and!; [|done|done].
  unfold plan_view, get. rewrite H1, H2, H3, H4, H5. cbn.
  by rewrite Hlines.
Qed.

End page_properties.

Section run_properties.
Context `{Libraries}.
Import main_script.

Lemma then_rerun_state shown (r : exc () * App) : (then_rerun shown r).2 = r.2.
Proof. by destruct r as [[[]|e] app']. Qed.

(** X19.  A script run changes the application through one of the four user
    actions, under the guard of that action, or not at all: an upload only
    while no file is stored, a reset, an analysis only while there is a file,
    no blueprint and a client, a rendering only once there is a blueprint
    and a client. *)
Theorem script_run_is_one_action st_image cfg ui app :
  (script_run st_image cfg ui app).2 = app
  ∨ ui_step app (script_run st_image cfg ui app).2.
Proof.
  unfold script_run.
  destruct (uploaded_file_obj (session_state app)) as [file|] eqn:Hfile.
  - destruct (pressed_upload_new ui).
    + right. rewrite then_rerun_state. apply step_reset. by rewrite Hfile.
    + destruct (st_image file) as [[]|e]; [|by left].
      destruct (blueprint_data (session_state app)) as [blueprint|] eqn:Hblueprint.
      * destruct (plan_view blueprint) as [plan [[]|e]]; [|by left].
        destruct (hf_client cfg) as [client|] eqn:Hclient; [|by left].
        destruct (pressed_generate ui); [|by left].
        right. rewrite then_rerun_state.
        apply step_generate; by rewrite ?Hfile, ?Hblueprint, ?Hclient.
      * destruct (gemini_client cfg) as [client|] eqn:Hclient; [|by left].
        destruct (pressed_analyze ui); [|by left].
        right. rewrite then_rerun_state.
        apply step_analyze; by rewrite ?Hfile, ?Hclient.
  - destruct (dropped_file ui) as [uploaded_file|]; [|by left].
    right. rewrite then_rerun_state. by apply step_upload.
Qed.

(** The remote requests of the two callbacks: at most one each. *)
Lemma analyze_image_callback_requests cfg app :
  ∃ requests,
    remote_calls (log (exec (analyze_image_callback cfg) app))
    = remote_calls (log app) ++ requests
    ∧ (length requests ≤ 1)%nat.
Proof.
  destruct (uploaded_file_obj (session_state app)) as [uploaded_file|] eqn:Hfile.
  - destruct (Image_open uploaded_file) as [image_pil|e] eqn:Himage.
    + rewrite (analyze_image_callback_log cfg app uploaded_file image_pil Hfile Himage).
      unfold exec.
      destruct (cache_data app !! (gemini_api_key cfg, unique_id (session_state app)))
        as [entry|] eqn:Hlook.
      * exists []. split; [|simpl; lia]. unfold run_gemini_analysis.
        rewrite (st_cache_data_hit _ _ _ _ Hlook). simpl.
        by rewrite remote_calls_app, remote_calls_replayed.
      * destruct (gemini_client cfg) as [client|] eqn:Hclient.
        -- exists [RemoteGenerateContent (analysis_request image_pil)].
           split; [|simpl; lia].
           exact (analysis_miss_calls_service cfg client image_pil _ _ app Hlook Hclient).
        -- exists []. split; [|simpl; lia]. unfold run_gemini_analysis, st_cache_data.
           rewrite Hlook, run_gemini_analysis_body_eq, Hclient. simpl.
           by rewrite !app_nil_r.
    + exists []. split; [|simpl; lia].
      unfold exec. rewrite analyze_image_callback_eq, Hfile, Himage.
      unfold_M. simpl. by rewrite remote_calls_app.
  - exists []. split; [|simpl; lia].
    unfold exec. rewrite analyze_image_callback_eq, Hfile.
    unfold_M. simpl. by rewrite remote_calls_app.
Qed.

Lemma generate_image_callback_requests cfg app :
  ∃ requests,
    remote_calls (log (exec (generate_image_callback cfg) app))
    = remote_calls (log app) ++ requests
    ∧ (length requests ≤ 1)%nat.
Proof.
  unfold exec. rewrite generate_image_callback_eq.
  destruct (negb (truthy (vis_prompt (session_state app)))).
  { exists []. split; [by rewrite app_nil_r | simpl; lia]. }
  destruct (hf_client cfg) as [client|] eqn:Hclient.
  - exists [RemoteTextToImage (render_request (vis_prompt (session_state app)))].
    split; [|simpl; lia].
    rewrite (generate_image_with_hf_eq cfg client _ app Hclient).
    destruct (text_to_image client (render_request (vis_prompt (session_state app))))
      as [[image|data]|e]; simpl; try by rewrite remote_calls_app.
    destruct (Image_open data) as [image|e]; simpl; by rewrite remote_calls_app.
  - exists []. split; [|simpl; lia].
    unfold generate_image_with_hf. rewrite Hclient. unfold_M. simpl.
    by rewrite remote_calls_app.
Qed.

(** X20.  A script run sends at most one request to a remote service, and
    none unless the analysis or the generation button was pressed. *)
Theorem script_run_sends_at_most_one_request st_image cfg ui app :
  ∃ requests,
    remote_calls (log (script_run st_image cfg ui app).2)
    = remote_calls (log app) ++ requests
    ∧ (length requests ≤ 1)%nat
    ∧ (pressed_analyze ui = false → pressed_generate ui = false → requests = []).
Proof.
  assert (Hnone : ∃ requests,
            remote_calls (log app) = remote_calls (log app) ++ requests
            ∧ (length requests ≤ 1)%nat
            ∧ (pressed_analyze ui = false → pressed_generate ui = false
               → requests = [])).
  { exists []. split_and!; [by rewrite app_nil_r | simpl; lia | done]. }
  unfold script_run.
  destruct (uploaded_file_obj (session_state app)) as [file|].
  - destruct (pressed_upload_new ui); [done|].
    destruct (st_image file) as [[]|e]; [|done].
    destruct (blueprint_data (session_state app)) as [blueprint|].
    + destruct (plan_view blueprint) as [plan [[]|e]]; [|done].
      destruct (hf_client cfg) as [client|]; [|done].
      destruct (pressed_generate ui) eqn:Hpressed; [|done].
      rewrite then_rerun_state.
      destruct (generate_image_callback_requests cfg app) as (requests & Hlog & Hlen).
      exists requests. by split_and!.
    + destruct (gemini_client cfg) as [client|]; [|done].
      destruct (pressed_analyze ui) eqn:Hpressed; [|done].
      rewrite then_rerun_state.
      destruct (analyze_image_callback_requests cfg app) as (requests & Hlog & Hlen).
      exists requests. by split_and!.
  - by destruct (dropped_file ui).
Qed.

(** The plan never contains the generation button nor a concept image. *)
Lemma material_lines_elements items el :
  el ∈ (material_lines items).1 → ∃ name quantity, el = MaterialLine name quantity.
Proof.
  revert el. induction items as [|m items IH]; intros el; cbn [material_lines].
  - by intros ?%elem_of_nil.
  - destruct (subscript m "material_name") as [name|e];
      [|by intros ?%elem_of_nil].
    destruct (subscript m "estimated_quantity") as [quantity|e];
      [|by intros ?%elem_of_nil].
    destruct (material_lines items) as [lines r]. cbn in IH |- *.
    intros [-> | Hin]%elem_of_cons; [by exists name, quantity | by apply IH].
Qed.

Lemma plan_view_elements (blueprint : dict) el :
  el ∈ (plan_view blueprint).1 →
  el ≠ GenerateButton ∧ ∀ image, el ≠ ConceptImage image.
Proof.
  unfold plan_view.
  destruct (iterate (get blueprint "material_breakdown" (JArr []))) as [items|e].
  - pose proof (material_lines_elements items el) as Hlines.
    destruct (material_lines items) as [lines [[]|e]]; cbn in Hlines |- *.
    + rewrite !elem_of_cons, elem_of_app, elem_of_cons.
      intros [-> | [-> | [-> | [-> | [-> | [Hin | [-> | Hin]]]]]]]; try done.
      * by destruct (Hlines Hin) as (name & quantity & ->).
      * unfold steps_lines in Hin.
        destruct (get blueprint "assembly_steps_summary" (JStr EmptyString))
          as [| | | |s|l|]; try by apply elem_of_nil in Hin.
        -- by apply list_elem_of_singleton in Hin as ->.
        -- apply elem_of_lookup_imap in Hin as (i & step & -> & _). done.
    + rewrite !elem_of_cons.
      intros [-> | [-> | [-> | [-> | [-> | Hin]]]]]; try done.
      by destruct (Hlines Hin) as (name & quantity & ->).
  - cbn. rewrite !elem_of_cons.
    intros [-> | [-> | [-> | [-> | [-> | Hin]]]]]; try done.
    by apply elem_of_nil in Hin.
Qed.

(** X21.  After a failed generation the concept image of an earlier success
    is still stored but no longer shown: in a session whose status is
    [failed], a script run in which nothing is pressed ends normally with
    the generation error on the page and no concept image. *)
Theorem failed_status_hides_the_stored_image st_image cfg ui app file blueprint image :
  uploaded_file_obj (session_state app) = Some file →
  st_image file = Ok () →
  blueprint_data (session_state app) = Some blueprint →
  (plan_view blueprint).2 = Ok () →
  generated_image_obj (session_state app) = Some image →
  last_generation_status (session_state app) = Some "failed" →
  pressed_upload_new ui = false →
  pressed_generate ui = false →
  let page := (script_run st_image cfg ui app).1 in
  page.2 = Finished
  ∧ GenerationFailedError ∈ page.1
  ∧ ∀ shown, ConceptImage shown ∉ page.1.
Proof.
  intros Hfile Hst Hblueprint Hplan Himage Hstatus Hreset Hgenerate. cbv zeta.
  unfold script_run. rewrite Hfile, Hreset, Hst, Hblueprint.
  pose proof (plan_view_elements blueprint) as Helements.
  destruct (plan_view blueprint) as [plan r]. cbn in Hplan, Helements. subst r.
  unfold status_view. rewrite Hstatus.
  rewrite decide_True by done.
  assert (Hpage : ∀ button,
            (∀ shown, button ≠ ConceptImage shown) →
            GenerationFailedError
              ∈ ([PageTitle; UploadNewImageButton; SidebarCurrentItem file]
                 ++ plan ++ [VisualizationSubheader]) ++ [button; GenerationFailedError]
            ∧ ∀ shown, ConceptImage shown
                ∉ ([PageTitle; UploadNewImageButton; SidebarCurrentItem file]
                   ++ plan ++ [VisualizationSubheader])
                  ++ [button; GenerationFailedError]).
  { intros button Hbutton. split.
    - rewrite !elem_of_app, !elem_of_cons. right. right. by left.
    - intros shown Hin.
      apply elem_of_app in Hin as [Hin | Hin];
        [apply elem_of_app in Hin as [Hin | Hin];
         [|apply elem_of_app in Hin as [Hin | Hin]]|].
      + repeat (apply elem_of_cons in Hin as [Hin | Hin]; [discriminate|]).
        by apply elem_of_nil in Hin.
      + destruct (Helements _ Hin) as [_ Hne]. by apply (Hne shown).
      + repeat (apply elem_of_cons in Hin as [Hin | Hin]; [discriminate|]).
        by apply elem_of_nil in Hin.
      + apply elem_of_cons in Hin as [Hin | Hin]; [by apply (Hbutton shown)|].
        repeat (apply elem_of_cons in Hin as [Hin | Hin]; [discriminate|]).
        by apply elem_of_nil in Hin. }
  destruct (hf_client cfg) as [client|].
  - rewrite Hgenerate. cbn. split; [done|]. by apply (Hpage GenerateButton).
  - cbn. split; [done|]. by apply (Hpage HFTokenWarning).
Qed.

(** X22.  A stored blueprint whose plan cannot be drawn blocks the page:
    unless the reset button was pressed, the script run ends with an
    exception before the generation button is drawn and leaves the
    application as it was, so no rendering can be asked for. *)
Theorem malformed_blueprint_blocks_the_page st_image cfg ui app file blueprint e :
  uploaded_file_obj (session_state app) = Some file →
  blueprint_data (session_state app) = Some blueprint →
  (plan_view blueprint).2 = Raise e →
  pressed_upload_new ui = false →
  ∃ shown e',
    script_run st_image cfg ui app = ((shown, Failed e'), app)
    ∧ GenerateButton ∉ shown.
Proof.
  intros Hfile Hblueprint Hplan Hreset.
  unfold script_run. rewrite Hfile, Hreset, Hblueprint.
  destruct (st_image file) as [[]|e0].
  - pose proof (plan_view_elements blueprint) as Helements.
    destruct (plan_view blueprint) as [plan r]. cbn in Hplan, Helements. subst r.
    exists ([PageTitle; UploadNewImageButton; SidebarCurrentItem file] ++ plan), e.
    split; [done|]. intros Hin.
    apply elem_of_app in Hin as [Hin | Hin].
    + repeat (apply elem_of_cons in Hin as [Hin | Hin]; [discriminate|]).
      by apply elem_of_nil in Hin.
    + by destruct (Helements _ Hin) as [Hne _].
  - exists [PageTitle; UploadNewImageButton], e0. split; [done|]. intros Hin.
    repeat (apply elem_of_cons in Hin as [Hin | Hin]; [discriminate|]).
    by apply elem_of_nil in Hin.
Qed.

End run_properties.

(** ** The properties at concrete inputs *)

Section sample_runs.
Import samples main_script.
#[local] Existing Instance sample_libraries.

(** The session with the analysed bottles is one the interface reaches: an
    upload, then an analysis. *)
Lemma analysed_app_reachable : reachable analysed_app.
Proof.
  exists ∅. apply rtc_l with uploaded_app.
  - by apply (step_upload initial_app bottles clock_a).
  - apply rtc_once, (step_analyze uploaded_app sample_config); done.
Qed.

(** X1, at a concrete input: the entry of the analysed bottles is still in
    the table after the reset. *)
Lemma cache_entries_are_never_lost_witness :
  let entry := {| value := (Some lamp_blueprint, JStr "a lamp made of bottles");
                  replayed := [] |} in
  rtc ui_step analysed_app (exec reset_app analysed_app)
  ∧ cache_data analysed_app !! ("key-1", Some 1700000000) = Some entry
  ∧ cache_data (exec reset_app analysed_app) !! ("key-1", Some 1700000000)
    = Some entry.
Proof.
  cbv zeta.
  assert (Hfile : uploaded_file_obj (session_state analysed_app) = Some bottles)
    by reflexivity.
  assert (Hsteps : rtc ui_step analysed_app (exec reset_app analysed_app))
    by (apply rtc_once, step_reset; by rewrite Hfile).
  assert (Hentry : cache_data analysed_app !! ("key-1", Some 1700000000)
                   = Some {| value := (Some lamp_blueprint,
                                       JStr "a lamp made of bottles");
                             replayed := [] |}) by reflexivity.
  split_and!; [exact Hsteps | exact Hentry |].
  exact (cache_entries_are_never_lost _ _ _ _ _ Hsteps Hentry).
Defined.

(** X2, at a concrete input: the lamp on display is in the table. *)
Lemma displayed_blueprint_is_cached_witness :
  blueprint_data (session_state analysed_app) = Some lamp_blueprint
  ∧ ∃ key entry,
      cache_data analysed_app !! (key, unique_id (session_state analysed_app))
      = Some entry
      ∧ value entry = (Some lamp_blueprint, vis_prompt (session_state analysed_app)).
Proof.
  split; [reflexivity|].
  apply (displayed_blueprint_is_cached analysed_app lamp_blueprint);
    [exact analysed_app_reachable | reflexivity].
Defined.

(** X3, at a concrete input: the analysis of the uploaded bottles, twice. *)
Lemma analyze_image_callback_idempotent_witness :
  let app1 := exec (analyze_image_callback sample_config) uploaded_app in
  let app2 := exec (analyze_image_callback sample_config) app1 in
  session_state app2 = session_state app1
  ∧ cache_data app2 = cache_data app1
  ∧ remote_calls (log app2) = remote_calls (log app1).
Proof.
  apply (analyze_image_callback_idempotent sample_config sample_config uploaded_app).
  reflexivity.
Defined.

(** X4, at a concrete input: the unlucky picture, analysed under [key-1]
    and then under [key-2]. *)
Lemma failed_analysis_retried_witness :
  let app1 := exec (analyze_image_callback sample_config) unlucky_app in
  let app2 := exec (analyze_image_callback other_key_config) app1 in
  analysis_attempt sample_gemini_client (Raster unlucky)
  = Raise (APIError "quota exceeded")
  ∧ remote_calls (log app2)
    = remote_calls (log app1)
      ++ [RemoteGenerateContent (analysis_request (Raster unlucky))].
Proof.
  cbv zeta. split; [reflexivity|].
  apply (failed_analysis_retried_under_new_key sample_config other_key_config
           sample_gemini_client sample_gemini_client unlucky (Raster unlucky)
           (APIError "quota exceeded") unlucky_app);
    try reflexivity.
  discriminate.
Defined.

(** X5, at a concrete input: a call without a client, then one with the
    sample client, for the same key and identifier. *)
Lemma missing_client_is_memoized_witness :
  let first :=
    run_gemini_analysis no_client_config (Some (Raster bottles)) "key-1" (Some 7)
      initial_app in
  let second :=
    run_gemini_analysis sample_config (Some (Raster bottles)) "key-1" (Some 7)
      first.2 in
  first.1 = Ok (None, JNull)
  ∧ log first.2 = log initial_app
  ∧ cache_data first.2 !! ("key-1", Some 7)
    = Some {| value := (None, JNull); replayed := [] |}
  ∧ second.1 = Ok (None, JNull)
  ∧ log second.2 = log initial_app.
Proof.
  apply (missing_client_is_memoized no_client_config sample_config
           (Some (Raster bottles)) (Some (Raster bottles)) "key-1" (Some 7)
           initial_app); reflexivity.
Defined.

(** X6, at a concrete input: the analysis callback on the blank session. *)
Lemma analysis_needs_a_decodable_file_witness :
  uploaded_file_obj (session_state initial_app) = None
  ∧ ∃ message,
      analyze_image_callback sample_config initial_app =
        (Ok (), {| session_state := session_state initial_app;
                   cache_data := cache_data initial_app;
                   log := log initial_app ++ [StError message] |})
      ∧ (message = UploadAnImageFirst ∨ ∃ e, message = ErrorProcessingImage e).
Proof.
  split; [reflexivity|].
  apply (analysis_needs_a_decodable_file sample_config initial_app).
  left. reflexivity.
Defined.

(** X7, at a concrete input: the prompt of the lamp, rendered. *)
Lemma render_succeeds_witness :
  let app' := exec (generate_image_callback sample_config) analysed_app in
  truthy (vis_prompt (session_state analysed_app)) = true
  ∧ generated_image_obj (session_state app')
    = Some (Raster [Byte.x50; Byte.x4e; Byte.x47])
  ∧ last_generation_status (session_state app') = Some "success".
Proof.
  cbv zeta.
  assert (Hprompt : truthy (vis_prompt (session_state analysed_app)) = true)
    by reflexivity.
  split; [exact Hprompt|].
  apply (proj1 (render_succeeds_iff_image_decodes sample_config analysed_app Hprompt)).
  exists sample_hf_client. split; [reflexivity|].
  right. exists [Byte.x50; Byte.x4e; Byte.x47]. split; reflexivity.
Defined.

(** X8, at a concrete input: the lamp rendered twice. *)
Lemma every_render_calls_the_service_witness :
  let request :=
    RemoteTextToImage (render_request (vis_prompt (session_state analysed_app))) in
  let app1 := exec (generate_image_callback sample_config) analysed_app in
  let app2 := exec (generate_image_callback sample_config) app1 in
  remote_calls (log app1) = remote_calls (log analysed_app) ++ [request]
  ∧ remote_calls (log app2) = remote_calls (log analysed_app) ++ [request; request]
  ∧ cache_data app2 = cache_data analysed_app.
Proof.
  apply (every_render_calls_the_service sample_config sample_config
           sample_hf_client sample_hf_client analysed_app); reflexivity.
Defined.

(** X9, at a concrete input: two readings one second apart. *)
Lemma identifiers_a_second_apart_witness :
  (0 <= clock_a)%Q ∧ (clock_a + 1 <= clock_c)%Q
  ∧ ∃ id_a id_b,
      unique_id (session_state (exec (upload_handler bottles clock_a) initial_app))
      = Some id_a
      ∧ unique_id (session_state (exec (upload_handler crates clock_c) initial_app))
        = Some id_b
      ∧ id_a < id_b.
Proof.
  assert (Hpos : (0 <= clock_a)%Q) by (unfold Qle; simpl; lia).
  assert (Hlater : (clock_a + 1 <= clock_c)%Q) by (unfold Qle; simpl; lia).
  split_and!; [exact Hpos | exact Hlater |].
  exact (identifiers_a_second_apart_differ bottles crates clock_a clock_c
           initial_app initial_app Hpos Hlater).
Defined.

(** X10, at a concrete input: the bottles, a reset, and the crates a second
    later. *)
Lemma upload_a_second_later_witness :
  let app1 := exec (upload_handler bottles clock_a) initial_app in
  let app2 := exec (analyze_image_callback sample_config) app1 in
  let app3 := exec reset_app app2 in
  let app4 := exec (upload_handler crates clock_c) app3 in
  let app5 := exec (analyze_image_callback sample_config) app4 in
  unique_id (session_state app4) ≠ unique_id (session_state app1)
  ∧ remote_calls (log app5)
    = remote_calls (log app2)
      ++ [RemoteGenerateContent (analysis_request (Raster crates))].
Proof.
  apply (upload_a_second_later_is_analysed_anew sample_config sample_config
           sample_gemini_client bottles crates (Raster crates) clock_a clock_c).
  - unfold Qle; simpl; lia.
  - unfold Qle; simpl; lia.
  - reflexivity.
  - reflexivity.
Defined.

(** X11, at a concrete input: the session with the analysed bottles. *)
Lemma reachable_session_shape_witness :
  let s := session_state analysed_app in
  (uploaded_file_obj s = None ↔ unique_id s = None)
  ∧ (blueprint_data s ≠ None → uploaded_file_obj s ≠ None)
  ∧ (∀ blueprint, blueprint_data s = Some blueprint → blueprint ≠ ∅)
  ∧ (generated_image_obj s ≠ None → blueprint_data s ≠ None)
  ∧ (last_generation_status s ≠ None → blueprint_data s ≠ None)
  ∧ (last_generation_status s = Some "success" → generated_image_obj s ≠ None)
  ∧ last_generation_status s
    ∈ [None; Some "no_prompt"; Some "success"; Some "failed"].
Proof.
  exact (reachable_session_shape analysed_app analysed_app_reachable).
Defined.

(** X14, at a concrete input: the stand-alone script on [waste.jpg] with a
    service that blocks every answer. *)
Lemma design_agent_reports_safety_block_witness :
  let response :=
    {| text := None; candidates := [{| finish_reason := Some SAFETY |}] |} in
  design_agent.analyze_waste_and_design "waste.jpg" blocking_gemini_client =
    (design_agent.PrintSendingRequest :: design_agent.report_empty_text response,
     Ok ())
  ∧ (design_agent.PrintBlockedBySafetyFilter ∈ design_agent.report_empty_text response
     ↔ ∃ c rest, candidates response = c :: rest ∧ finish_reason c = Some SAFETY).
Proof.
  apply (design_agent_reports_empty_text "waste.jpg" blocking_gemini_client
           (Raster bottles)); reflexivity.
Defined.

(** X15, at a concrete input: the stand-alone script on [waste.jpg] with the
    sample service, which answers with the lamp. *)
Lemma design_agent_prints_lamp_witness :
  conforms design_agent.DESIGN_SCHEMA (JObj lamp_dict) = true
  ∧ ∃ title category score,
      design_agent.analyze_waste_and_design "waste.jpg" sample_gemini_client =
        ([ design_agent.PrintSendingRequest;
           design_agent.PrintSuccessHeader;
           design_agent.PrintBlueprint (JObj lamp_dict);
           design_agent.PrintProjectMetrics;
           design_agent.PrintDesignTitle (JStr title);
           design_agent.PrintUpcycleScore (JInt score);
           design_agent.PrintMaterialType (JStr category) ], Ok ())
      ∧ 1 ≤ score ≤ 10
      ∧ category ∈ ["Art Piece"; "Small Furniture"; "Accessory"; "Tool"].
Proof.
  split; [reflexivity|].
  apply (design_agent_prints_conforming_blueprint "waste.jpg" sample_gemini_client
           (Raster bottles)
           {| text := Some lamp_text; candidates := [{| finish_reason := Some STOP |}] |}
           (JObj lamp_dict)); reflexivity.
Defined.

(** X18, at a concrete input: the plan of the lamp. *)
Lemma plan_view_of_lamp_witness :
  conforms design_agent.DESIGN_SCHEMA (JObj lamp_blueprint) = true
  ∧ ∃ title category score materials steps lines,
      plan_view lamp_blueprint =
        ([ DesignHeader (JStr title); CategoryCaption (JStr category); PlanSubheader;
           UpcycleScoreMetric (JInt score); MaterialBreakdownHeading ]
         ++ lines ++ [AssemblyStepsHeading; StepsText (JStr steps)], Ok ())
      ∧ lamp_blueprint !! "material_breakdown" = Some (JArr materials)
      ∧ Forall2 (λ m line, ∃ d name quantity,
                   m = JObj d
                   ∧ d !! "material_name" = Some (JStr name)
                   ∧ d !! "estimated_quantity" = Some (JStr quantity)
                   ∧ line = MaterialLine (JStr name) (JStr quantity))
          materials lines.
Proof.
  split; [reflexivity|].
  apply (plan_view_of_conforming_blueprint lamp_blueprint). reflexivity.
Defined.

(** X21, at a concrete input: the page of the session in which the second
    rendering of the lamp failed. *)
Lemma failed_status_hides_the_lamp_witness :
  let page := (script_run sample_st_image sample_config idle failed_app).1 in
  generated_image_obj (session_state failed_app)
  = Some (Raster [Byte.x50; Byte.x4e; Byte.x47])
  ∧ last_generation_status (session_state failed_app) = Some "failed"
  ∧ page.2 = Finished
  ∧ GenerationFailedError ∈ page.1
  ∧ ∀ shown, ConceptImage shown ∉ page.1.
Proof.
  cbv zeta. split; [reflexivity|]. split; [reflexivity|].
  apply (failed_status_hides_the_stored_image sample_st_image sample_config idle
           failed_app bottles lamp_blueprint (Raster [Byte.x50; Byte.x4e; Byte.x47]));
    reflexivity.
Defined.

(** X22, at a concrete input: the page of a session whose blueprint has a
    material without a quantity. *)
Lemma malformed_blueprint_witness :
  (plan_view glue_blueprint).2 = Raise (KeyError "estimated_quantity")
  ∧ ∃ shown e',
      script_run sample_st_image sample_config idle glue_app
      = ((shown, Failed e'), glue_app)
      ∧ GenerateButton ∉ shown.
Proof.
  split; [reflexivity|].
  apply (malformed_blueprint_blocks_the_page sample_st_image sample_config idle
           glue_app scraps glue_blueprint (KeyError "estimated_quantity"));
    reflexivity.
Defined.

End sample_runs.
